(** * BlackRoad Delivery Manager: the delivery ledger over its SQLite store

    A shallow embedding of [src/delivery_manager.py]: the two tables of the
    store, the [DeliveryManager] operations over them, and the properties
    of the ledger.

    The store is threaded explicitly.  What the process reads from its
    environment during one call (the random generator, the clock, and
    whether SQLite can complete a write) is gathered in a record [env]. *)

From Stdlib Require Import List String Ascii ZArith Bool Lia Floats.
From Stdlib Require Import Permutation Sorted.
Import ListNotations.
Open Scope string_scope.
Open Scope Z_scope.

(** ** Exceptions and results *)

(** The Python exceptions that the operations can let escape. *)
Inductive exn : Type :=
| IntegrityError    (* sqlite3.IntegrityError: UNIQUE or NOT NULL violated *)
| OperationalError  (* sqlite3.OperationalError: the write could not be done *)
| ValueError        (* DeliveryStatus(v) on a string that is no member's value *)
| OSError.          (* open(path, "w") on a path that cannot be opened or written *)

Inductive result (A : Type) : Type :=
| Ok (a : A)
| Raise (e : exn).
Arguments Ok {A} a.
Arguments Raise {A} e.

(** ** class DeliveryStatus(str, Enum) *)

Inductive DeliveryStatus : Type :=
| PENDING | PICKED_UP | IN_TRANSIT | OUT_FOR_DELIVERY
| DELIVERED | FAILED_ATTEMPT | RETURNED | CANCELLED.

Definition value (s : DeliveryStatus) : string :=
  match s with
  | PENDING          => "pending"
  | PICKED_UP        => "picked_up"
  | IN_TRANSIT       => "in_transit"
  | OUT_FOR_DELIVERY => "out_for_delivery"
  | DELIVERED        => "delivered"
  | FAILED_ATTEMPT   => "failed_attempt"
  | RETURNED         => "returned"
  | CANCELLED        => "cancelled"
  end.

Definition members : list DeliveryStatus :=
  [PENDING; PICKED_UP; IN_TRANSIT; OUT_FOR_DELIVERY;
   DELIVERED; FAILED_ATTEMPT; RETURNED; CANCELLED].

(** [DeliveryStatus(v)]: the member whose value is [v]; Python raises
    [ValueError] when there is none. *)
Definition DeliveryStatus_of_value (v : string) : result DeliveryStatus :=
  match find (fun s => value s =? v)%string members with
  | Some s => Ok s
  | None => Raise ValueError
  end.

(** ** The dataclass [Delivery] *)

(** [weight_kg] is annotated [float]; a Shipment read back from a row
    whose column is NULL holds [None] there. *)

Module Delivery.
Record t : Type := make {
  sender             : string;
  recipient          : string;
  destination        : string;
  weight_kg          : option float;
  status             : DeliveryStatus;
  tracking_number    : string;
  estimated_delivery : option string;
  actual_delivery    : option string;
  courier            : string;
  notes              : string;
  created_at         : string;
  updated_at         : string;
  id                 : option Z
}.

Definition set_id (d : t) (i : option Z) : t :=
  make (sender d) (recipient d) (destination d) (weight_kg d) (status d)
       (tracking_number d) (estimated_delivery d) (actual_delivery d)
       (courier d) (notes d) (created_at d) (updated_at d) i.

Definition is_active (d : t) : bool :=
  match status d with
  | DELIVERED | RETURNED | CANCELLED => false
  | _ => true
  end.
End Delivery.

(** ** The two tables *)

(** A row of [deliveries].  [status] is a TEXT column: the table accepts any
    string there.  [weight_kg] is a REAL column without NOT NULL. *)
Module Row.
Record t : Type := make {
  id                 : Z;
  tracking_number    : string;
  sender             : string;
  recipient          : string;
  destination        : string;
  weight_kg          : option float;
  status             : string;
  estimated_delivery : option string;
  actual_delivery    : option string;
  courier            : string;
  notes              : string;
  created_at         : string;
  updated_at         : string
}.
End Row.

(** A row of [tracking_events]; [history] hands these out as dicts. *)
Module Event.
Record t : Type := make {
  id          : Z;
  delivery_id : Z;
  status      : string;
  location    : string;
  message     : string;
  timestamp   : string
}.
End Event.

(** The database file.  Rows are kept in rowid order.  Both tables are
    AUTOINCREMENT, so SQLite remembers the largest rowid ever handed out
    for each of them (table [sqlite_sequence]). *)
Record database : Type := mkdb {
  deliveries           : list Row.t;
  tracking_events      : list Event.t;
  seq_deliveries       : Z;
  seq_tracking_events  : Z
}.

(** The store right after [_init_db] on a new file. *)
Definition init_db : database := mkdb [] [] 0 0.

(** ** The environment of one call *)

Record env : Type := mkenv {
  (** the successive draws of the random generator *)
  random     : nat -> nat;
  (** the successive readings of [datetime.now().isoformat()] *)
  clock      : nat -> string;
  (** whether the n-th write transaction of the call can be completed *)
  storage_ok : nat -> bool
}.

(** ** A state and exception monad over the store *)

Definition M (A : Type) : Type := database -> result A * database.

Definition ret {A} (a : A) : M A := fun db => (Ok a, db).
Definition bind {A B} (m : M A) (f : A -> M B) : M B :=
  fun db =>
    match m db with
    | (Ok a, db1) => f a db1
    | (Raise e, db1) => (Raise e, db1)
    end.

Notation "x <- m ;; k" := (bind m (fun x => k))
  (at level 61, m at next level, right associativity).
Notation "m ;;; k" := (bind m (fun _ => k))
  (at level 61, right associativity).

(** [with self._conn() as conn: ... conn.commit()].  When SQLite cannot
    write (the file is locked or read-only, the disk is full),
    [OperationalError] escapes before the statement has had any effect.
    Otherwise the statement runs: if it violates a constraint its exception
    escapes and nothing is changed, else its effect is committed. *)
Definition transaction {A} (ok : bool) (stmt : database -> result A * database) : M A :=
  fun db =>
    if ok then
      match stmt db with
      | (Ok a, db1) => (Ok a, db1)
      | (Raise x, _) => (Raise x, db)
      end
    else (Raise OperationalError, db).

(** ** REAL columns *)

(** What a REAL column gives back for a Python float bound to it: NaN is
    stored as NULL, a zero of either sign is read back as [0.0], and every
    other value is kept. *)
Definition real_column (w : float) : option float :=
  if PrimFloat.is_nan w then None
  else if PrimFloat.is_zero w then Some 0%float
  else Some w.

(** Binding a Python value that is a float or [None]. *)
Definition bind_real (v : option float) : option float :=
  match v with
  | Some w => real_column w
  | None => None
  end.

(** ** Tracking numbers *)

(** [string.ascii_uppercase + string.digits] *)
Definition population : string := "ABCDEFGHIJKLMNOPQRSTUVWXYZ0123456789".

(** [random.choices(population, k=k)]: [k] independent picks; each draw is
    turned into an index below [len(population)]. *)
Definition choices (pop : string) (k : nat) (rnd : nat -> nat) : list ascii :=
  map (fun i => nth (rnd i mod String.length pop)%nat (list_ascii_of_string pop) "000"%char)
      (seq 0 k).

(** The default factory of [Delivery.tracking_number]. *)
Definition default_tracking_number (e : env) : string :=
  "BR" ++ string_of_list_ascii (choices population 10 (random e)).

(** ** ORDER BY *)

(** The rows in the order of the key: an insertion sort that keeps rows with
    equal keys in scan order. *)
Fixpoint insert_by {A} (le : A -> A -> bool) (x : A) (l : list A) : list A :=
  match l with
  | [] => [x]
  | y :: l' => if le x y then x :: y :: l' else y :: insert_by le x l'
  end.

Fixpoint order_by {A} (le : A -> A -> bool) (l : list A) : list A :=
  match l with
  | [] => []
  | x :: l' => insert_by le x (order_by le l')
  end.

(** [ORDER BY updated_at DESC] *)
Definition updated_at_desc (a b : Row.t) : bool :=
  String.leb (Row.updated_at b) (Row.updated_at a).

(** [ORDER BY timestamp] *)
Definition timestamp_asc (a b : Event.t) : bool :=
  String.leb (Event.timestamp a) (Event.timestamp b).

(** ** class DeliveryManager *)

Definition _row_to_delivery (row : Row.t) : result Delivery.t :=
  match DeliveryStatus_of_value (Row.status row) with
  | Raise e => Raise e
  | Ok st =>
      Ok (Delivery.make (Row.sender row) (Row.recipient row) (Row.destination row)
            (Row.weight_kg row) st (Row.tracking_number row)
            (Row.estimated_delivery row) (Row.actual_delivery row)
            (Row.courier row) (Row.notes row)
            (Row.created_at row) (Row.updated_at row) (Some (Row.id row)))
  end.

(** [[self._row_to_delivery(r) for r in rows]]: stops at the first row that
    cannot be decoded. *)
Fixpoint rows_to_deliveries (rows : list Row.t) : result (list Delivery.t) :=
  match rows with
  | [] => Ok []
  | r :: rows' =>
      match _row_to_delivery r with
      | Raise e => Raise e
      | Ok d =>
          match rows_to_deliveries rows' with
          | Raise e => Raise e
          | Ok ds => Ok (d :: ds)
          end
      end
  end.

(** [INSERT INTO tracking_events ...] in a transaction of its own.
    [delivery_id] is NOT NULL. *)
Definition _log_event (ok : bool) (now : string) (delivery_id : option Z)
    (status location message : string) : M unit :=
  transaction ok (fun db =>
    match delivery_id with
    | None => (Raise IntegrityError, db)
    | Some did =>
        let rowid := seq_tracking_events db + 1 in
        (Ok tt, mkdb (deliveries db)
                     (tracking_events db ++
                        [Event.make rowid did status location message now])
                     (seq_deliveries db) rowid)
    end).

(** Whether some row of [deliveries] carries the tracking number. *)
Definition stored (tracking_number : string) (db : database) : bool :=
  existsb (fun r => Row.tracking_number r =? tracking_number)%string (deliveries db).

(** [INSERT INTO deliveries ...]: [tracking_number] is UNIQUE; the new
    rowid is [cur.lastrowid]. *)
Definition insert_delivery (ok : bool) (d : Delivery.t) : M Z :=
  transaction ok (fun db =>
    if stored (Delivery.tracking_number d) db
    then (Raise IntegrityError, db)
    else
      let rowid := seq_deliveries db + 1 in
      (Ok rowid,
       mkdb (deliveries db ++
               [Row.make rowid (Delivery.tracking_number d) (Delivery.sender d)
                  (Delivery.recipient d) (Delivery.destination d)
                  (bind_real (Delivery.weight_kg d)) (value (Delivery.status d))
                  (Delivery.estimated_delivery d) (Delivery.actual_delivery d)
                  (Delivery.courier d) (Delivery.notes d)
                  (Delivery.created_at d) (Delivery.updated_at d)])
            (tracking_events db) rowid (seq_tracking_events db))).

Definition create (e : env) (sender recipient destination : string)
    (weight_kg : float) (courier : string) (estimated_delivery : option string)
    (notes : string) : M Delivery.t :=
  let now := clock e 0 in
  let d := Delivery.make sender recipient destination (Some weight_kg) PENDING
             (default_tracking_number e) estimated_delivery None courier notes
             now now None in
  rowid <- insert_delivery (storage_ok e 0) d ;;
  let d := Delivery.set_id d (Some rowid) in
  _log_event (storage_ok e 1) (clock e 1) (Delivery.id d)
             (value (Delivery.status d)) "" "Shipment created" ;;;
  ret d.

Definition get (tracking_number : string) : M (option Delivery.t) :=
  fun db =>
    match find (fun r => Row.tracking_number r =? tracking_number)%string
               (deliveries db) with
    | Some row =>
        match _row_to_delivery row with
        | Ok d => (Ok (Some d), db)
        | Raise e => (Raise e, db)
        end
    | None => (Ok None, db)
    end.

(** [UPDATE deliveries SET status=?, actual_delivery=COALESCE(?,actual_delivery),
    updated_at=? WHERE tracking_number=?] on one row. *)
Definition update_row (tracking_number new_status : string)
    (actual : option string) (now : string) (r : Row.t) : Row.t :=
  if (Row.tracking_number r =? tracking_number)%string then
    Row.make (Row.id r) (Row.tracking_number r) (Row.sender r) (Row.recipient r)
      (Row.destination r) (Row.weight_kg r) new_status (Row.estimated_delivery r)
      (match actual with Some a => Some a | None => Row.actual_delivery r end)
      (Row.courier r) (Row.notes r) (Row.created_at r) now
  else r.

Definition update_status (e : env) (tracking_number new_status : string)
    (location message : string) : M (option Delivery.t) :=
  let now := clock e 0 in
  let actual := if (new_status =? value DELIVERED)%string then Some now else None in
  transaction (storage_ok e 0) (fun db =>
    (Ok tt, mkdb (map (update_row tracking_number new_status actual now) (deliveries db))
                 (tracking_events db) (seq_deliveries db) (seq_tracking_events db))) ;;;
  d <- get tracking_number ;;
  match d with
  | Some d' =>
      _log_event (storage_ok e 1) (clock e 1) (Delivery.id d') new_status
                 location message ;;;
      ret d
  | None => ret d
  end.

(** [if status:] is false for [None] and for the empty string. *)
Definition truthy (status : option string) : option string :=
  match status with
  | Some "" => None
  | other => other
  end.

Definition list_deliveries (status : option string) : M (list Delivery.t) :=
  fun db =>
    let rows :=
      match truthy status with
      | Some s => filter (fun r => Row.status r =? s)%string (deliveries db)
      | None => deliveries db
      end in
    (rows_to_deliveries (order_by updated_at_desc rows), db).

Definition history (tracking_number : string) : M (list Event.t) :=
  d <- get tracking_number ;;
  match d with
  | None => ret []
  | Some d' =>
      fun db =>
        match Delivery.id d' with
        | Some did =>
            (Ok (order_by timestamp_asc
                   (filter (fun ev => Event.delivery_id ev =? did) (tracking_events db))),
             db)
        | None => (Ok [], db)
        end
  end.

(** ** Runs of the ledger *)

(** One call of a mutating operation, with its arguments. *)
Inductive call : Type :=
| Create (sender recipient destination : string) (weight_kg : float)
         (courier : string) (estimated_delivery : option string) (notes : string)
| UpdateStatus (tracking_number new_status location message : string).

(** The store a call leaves behind, whether it returns or raises. *)
Definition perform (e : env) (c : call) (db : database) : database :=
  match c with
  | Create s r dst w c ed n => snd (create e s r dst w c ed n db)
  | UpdateStatus tn st loc msg => snd (update_status e tn st loc msg db)
  end.

(** Whether the call returned a Shipment. *)
Definition succeeded (e : env) (c : call) (db : database) : bool :=
  match c with
  | Create s r dst w c ed n =>
      match fst (create e s r dst w c ed n db) with Ok _ => true | Raise _ => false end
  | UpdateStatus tn st loc msg =>
      match fst (update_status e tn st loc msg db) with
      | Ok (Some _) => true
      | _ => false
      end
  end.

(** The store after a run that started on a new database file; the run
    lists the calls with their environments, the latest call first. *)
Fixpoint store_after (run : list (env * call)) : database :=
  match run with
  | [] => init_db
  | (e, c) :: earlier => perform e c (store_after earlier)
  end.

(** The rows and events written by [create] and [update_status]. *)
Section Written.
Variable e : env.
Variable db : database.

Definition inserted_row (sender recipient destination : string) (weight_kg : float)
    (courier : string) (estimated_delivery : option string) (notes : string) : Row.t :=
  Row.make (seq_deliveries db + 1) (default_tracking_number e) sender recipient
    destination (real_column weight_kg) "pending" estimated_delivery None courier notes
    (clock e 0) (clock e 0).

Definition returned_delivery (sender recipient destination : string) (weight_kg : float)
    (courier : string) (estimated_delivery : option string) (notes : string) : Delivery.t :=
  Delivery.make sender recipient destination (Some weight_kg) PENDING
    (default_tracking_number e) estimated_delivery None courier notes
    (clock e 0) (clock e 0) (Some (seq_deliveries db + 1)).

Definition with_row (r : Row.t) : database :=
  mkdb (deliveries db ++ [r]) (tracking_events db) (Row.id r) (seq_tracking_events db).

Definition with_event (delivery_id : Z) (status location message : string) : database :=
  mkdb (deliveries db)
       (tracking_events db ++
          [Event.make (seq_tracking_events db + 1) delivery_id status location
             message (clock e 1)])
       (seq_deliveries db) (seq_tracking_events db + 1).

Definition with_status (tracking_number new_status : string) : database :=
  mkdb (map (update_row tracking_number new_status
               (if (new_status =? "delivered")%string then Some (clock e 0) else None)
               (clock e 0))
            (deliveries db))
       (tracking_events db) (seq_deliveries db) (seq_tracking_events db).
End Written.

(** ** The shape of a tracking number *)

(** A character of [A-Z0-9], by its code point. *)
Definition upper_or_digit (c : ascii) : bool :=
  let n := nat_of_ascii c in
  ((65 <=? n) && (n <=? 90) || (48 <=? n) && (n <=? 57))%nat.

(** Two fixed characters, then ten characters of [A-Z0-9]. *)
Definition well_shaped (tn : string) : bool :=
  match tn with
  | String "B" (String "R" rest) =>
      (String.length rest =? 10)%nat &&
      forallb upper_or_digit (list_ascii_of_string rest)
  | _ => false
  end.

(** ** Consistency of the store *)

(** What the schema and the two INSERT statements maintain: row ids are
    positive, not above the AUTOINCREMENT counter and pairwise distinct;
    tracking numbers are pairwise distinct; every event refers to a row of
    [deliveries]. *)
Record consistent (db : database) : Prop := {
  counter_nonneg : 0 <= seq_deliveries db;
  ids_in_range : forall r, In r (deliveries db) -> 0 < Row.id r <= seq_deliveries db;
  ids_distinct : NoDup (map Row.id (deliveries db));
  tracking_numbers_distinct : NoDup (map Row.tracking_number (deliveries db));
  events_have_parent :
    forall ev, In ev (tracking_events db) ->
      exists r, In r (deliveries db) /\ Row.id r = Event.delivery_id ev
}.

(** ** Reading the results of queries *)

(** The Shipment [d] is the row [r], decoded. *)
Definition decodes_to (r : Row.t) (d : Delivery.t) : Prop := _row_to_delivery r = Ok d.

(** [a] was touched no earlier than [b]. *)
Definition most_recent_first (a b : Delivery.t) : Prop :=
  String.leb (Delivery.updated_at b) (Delivery.updated_at a) = true.

(** The status of every stored row is the value of a declared status. *)
Definition statuses_declared (db : database) : Prop :=
  forall r, In r (deliveries db) -> exists s, Row.status r = value s.

(** ** The past of a Shipment *)

(** Whether the row with this id is stored with status Delivered. *)
Definition delivered_now (id : Z) (db : database) : bool :=
  existsb (fun r => (Row.id r =? id) && (Row.status r =? value DELIVERED)%string)
          (deliveries db).

(** Whether the Shipment was in status Delivered in the store left by some
    call of the run. *)
Fixpoint ever_delivered (id : Z) (run : list (env * call)) : bool :=
  match run with
  | [] => false
  | _ :: earlier => delivered_now id (store_after run) || ever_delivered id earlier
  end.

(** The events that [history] selects for a Shipment. *)
Definition events_of (delivery_id : Z) (db : database) : list Event.t :=
  filter (fun ev => Event.delivery_id ev =? delivery_id) (tracking_events db).

(** The status of the event appended last, if any. *)
Definition last_event_status (evs : list Event.t) : option string :=
  match rev evs with
  | ev :: _ => Some (Event.status ev)
  | [] => None
  end.

(** The status that the event log gives for a Shipment: that of its latest
    event. *)
Definition last_status (delivery_id : Z) (db : database) : option string :=
  last_event_status (events_of delivery_id db).

(** The Shipments that the [create] calls of a run returned, the latest
    first. *)
Fixpoint created (run : list (env * call)) : list Delivery.t :=
  match run with
  | [] => []
  | (e, c) :: earlier =>
      match c with
      | Create s r dst w co ed n =>
          match fst (create e s r dst w co ed n (store_after earlier)) with
          | Ok d => d :: created earlier
          | Raise _ => created earlier
          end
      | UpdateStatus _ _ _ _ => created earlier
      end
  end.

(** Whether the call is about the tracking number: a [create] that drew
    it, or an [update_status] on it. *)
Definition concerns (tn : string) (e : env) (c : call) : bool :=
  match c with
  | Create _ _ _ _ _ _ _ => (default_tracking_number e =? tn)%string
  | UpdateStatus tn' _ _ _ => (tn' =? tn)%string
  end.

(** The number of calls of the run about the tracking number that
    returned a Shipment. *)
Fixpoint successful_calls (tn : string) (run : list (env * call)) : nat :=
  match run with
  | [] => 0
  | (e, c) :: earlier =>
      ((if concerns tn e c && succeeded e c (store_after earlier) then 1 else 0)
       + successful_calls tn earlier)%nat
  end.

(** ** Statistics and export *)

(** A Python dict with string keys, kept in insertion order. *)
Definition dict (V : Type) : Type := list (string * V).

(** [d.get(k, default)] *)
Fixpoint dict_get {V} (d : dict V) (k : string) (default : V) : V :=
  match d with
  | [] => default
  | (k', v) :: d' => if (k' =? k)%string then v else dict_get d' k default
  end.

(** [d[k] = v]: an existing key keeps its place, a new key goes last. *)
Fixpoint dict_set {V} (d : dict V) (k : string) (v : V) : dict V :=
  match d with
  | [] => [(k, v)]
  | (k', v') :: d' =>
      if (k' =? k)%string then (k', v) :: d' else (k', v') :: dict_set d' k v
  end.

(** [sum(...)] over integers. *)
Definition sum (l : list Z) : Z := fold_left Z.add l 0.

(** The dict that [stats] returns. *)
Module Stats.
Record t : Type := make {
  total     : Z;
  active    : Z;
  by_status : dict Z
}.
End Stats.

Definition stats : M Stats.t :=
  items <- list_deliveries None ;;
  let by_status :=
    fold_left
      (fun (by_status : dict Z) d =>
         dict_set by_status (value (Delivery.status d))
                  (dict_get by_status (value (Delivery.status d)) 0 + 1))
      items [] in
  let active := sum (map (fun _ => 1) (filter Delivery.is_active items)) in
  ret (Stats.make (Z.of_nat (List.length items)) active by_status).

(** One record of the export: [asdict(i) | {"status": i.status.value}]. *)
Module Exported.
Record t : Type := make {
  sender             : string;
  recipient          : string;
  destination        : string;
  weight_kg          : option float;
  status             : string;
  tracking_number    : string;
  estimated_delivery : option string;
  actual_delivery    : option string;
  courier            : string;
  notes              : string;
  created_at         : string;
  updated_at         : string;
  id                 : option Z
}.
End Exported.

Definition asdict_with_status_value (i : Delivery.t) : Exported.t :=
  Exported.make (Delivery.sender i) (Delivery.recipient i) (Delivery.destination i)
    (Delivery.weight_kg i) (value (Delivery.status i)) (Delivery.tracking_number i)
    (Delivery.estimated_delivery i) (Delivery.actual_delivery i)
    (Delivery.courier i) (Delivery.notes i)
    (Delivery.created_at i) (Delivery.updated_at i) (Delivery.id i).

(** [open(path, "w")] and the write through it: the empty path can never
    be opened; for any other path the file system decides ([writable]). *)
Definition open_for_writing (writable : string -> bool) (path : string) : M unit :=
  fun db =>
    if (path =? "")%string then (Raise OSError, db)
    else if writable path then (Ok tt, db)
    else (Raise OSError, db).

(** [export_json(path)]: the records handed to [json.dump] for the file at
    [path], and the returned count.  The listing is read first, then the
    file is opened.  The JSON text itself is not modelled. *)
Definition export_json (writable : string -> bool) (path : string)
    : M (list Exported.t * Z) :=
  items <- list_deliveries None ;;
  let records := map asdict_with_status_value items in
  open_for_writing writable path ;;;
  ret (records, Z.of_nat (List.length records)).

(** The columns of a stored row, laid out as an export record. *)
Definition columns (r : Row.t) : Exported.t :=
  Exported.make (Row.sender r) (Row.recipient r) (Row.destination r)
    (Row.weight_kg r) (Row.status r) (Row.tracking_number r)
    (Row.estimated_delivery r) (Row.actual_delivery r)
    (Row.courier r) (Row.notes r)
    (Row.created_at r) (Row.updated_at r) (Some (Row.id r)).

(** The row is active: its status is none of the three final ones. *)
Definition active_row (r : Row.t) : bool :=
  negb ((Row.status r =? value DELIVERED)%string
        || (Row.status r =? value RETURNED)%string
        || (Row.status r =? value CANCELLED)%string).

(** The number of stored rows with the given status. *)
Definition count_status (v : string) (rows : list Row.t) : nat :=
  List.length (filter (fun r => Row.status r =? v)%string rows).

(** The status of the row is no declared value. *)
Definition undeclared (r : Row.t) : Prop := forall s, value s <> Row.status r.

(** The two rows are the same Shipment with the same creation data: they
    agree on every column that [update_status] does not assign. *)
Definition same_shipment (r r' : Row.t) : Prop :=
  Row.id r' = Row.id r /\
  Row.tracking_number r' = Row.tracking_number r /\
  Row.sender r' = Row.sender r /\
  Row.recipient r' = Row.recipient r /\
  Row.destination r' = Row.destination r /\
  Row.weight_kg r' = Row.weight_kg r /\
  Row.estimated_delivery r' = Row.estimated_delivery r /\
  Row.courier r' = Row.courier r /\
  Row.notes r' = Row.notes r /\
  Row.created_at r' = Row.created_at r.

(** The ids 1, 2, ..., n. *)
Definition ids_up_to (n : nat) : list Z := map Z.of_nat (seq 1 n).

(** Row ids are 1, 2, ... in row order and each AUTOINCREMENT counter is
    the number of rows of its table. *)
Definition numbered (db : database) : Prop :=
  map Row.id (deliveries db) = ids_up_to (List.length (deliveries db)) /\
  seq_deliveries db = Z.of_nat (List.length (deliveries db)) /\
  map Event.id (tracking_events db) = ids_up_to (List.length (tracking_events db)) /\
  seq_tracking_events db = Z.of_nat (List.length (tracking_events db)).

(** ** Sample environments *)

Definition two_readings (n : nat) : string :=
  match n with
  | O => "2024-05-01T10:00:00.000000"
  | _ => "2024-05-01T10:00:00.000150"
  end.

(** Every draw is 0 and every write goes through. *)
Definition calm : env := mkenv (fun _ => 0%nat) two_readings (fun _ => true).

(** The first ten draws are 0, the later ones 1. *)
Definition unlucky : env :=
  mkenv (fun i => if (i <? 10)%nat then 0%nat else 1%nat) two_readings (fun _ => true).


(** The first write of the call goes through, the later ones do not. *)
Definition log_fails : env :=
  mkenv (fun _ => 0%nat) two_readings (fun n => (n =? 0)%nat).


(** A later call: other draws, a later clock. *)
Definition later : env :=
  mkenv (fun _ => 1%nat)
        (fun n => match n with
                  | O => "2024-05-02T09:30:00.000000"
                  | _ => "2024-05-02T09:30:00.000150"
                  end)
        (fun _ => true).

(** A still later call. *)
Definition afterwards : env :=
  mkenv (fun _ => 2%nat)
        (fun n => match n with
                  | O => "2024-05-03T18:45:00.000000"
                  | _ => "2024-05-03T18:45:00.000150"
                  end)
        (fun _ => true).

(** ** Sample stores *)

(** One shipment, created on a new database file. *)
Definition one_parcel : database :=
  store_after [(calm, Create "Alice" "Bob" "123 Main St" 2.5%float "" None "")].

(** The same shipment after [update_status] with a string that is no
    status value. *)
Definition lost_parcel : database :=
  store_after [(later, UpdateStatus "BRAAAAAAAAAA" "lost" "" "");
               (calm, Create "Alice" "Bob" "123 Main St" 2.5%float "" None "")].

(** Two shipments, the second created a day after the first. *)
Definition two_parcels : database :=
  store_after [(later, Create "Carol" "Dan" "9 Elm Rd" 1%float "" None "");
               (calm, Create "Alice" "Bob" "123 Main St" 2.5%float "" None "")].

(** A Shipment is created, delivered, and then put back in transit. *)
Definition delivered_then_in_transit : list (env * call) :=
  [(afterwards, UpdateStatus "BRAAAAAAAAAA" "in_transit" "" "");
   (later, UpdateStatus "BRAAAAAAAAAA" "delivered" "Front door" "");
   (calm, Create "Alice" "Bob" "123 Main St" 2.5%float "" None "")].

(** The first shipment is picked up at a depot, but the event cannot be
    appended. *)
Definition picked_up_unlogged : database :=
  store_after [(log_fails, UpdateStatus "BRAAAAAAAAAA" "picked_up" "Depot A" "");
               (calm, Create "Alice" "Bob" "123 Main St" 2.5%float "" None "")].

(** A Shipment is created, picked up at a depot, and delivered. *)
Definition picked_up_then_delivered : list (env * call) :=
  [(afterwards, UpdateStatus "BRAAAAAAAAAA" "delivered" "" "");
   (later, UpdateStatus "BRAAAAAAAAAA" "picked_up" "Depot A" "");
   (calm, Create "Alice" "Bob" "123 Main St" 2.5%float "" None "")].

(** ** Proof steps *)

(** A call that did not return a Shipment adds nothing to the count. *)
Ltac no_success :=
  split; intros; cbn [fst]; rewrite andb_false_r; cbn [Nat.add]; auto.

(** * Properties *)

(** ** The operations, case by case *)

Lemma create_cases e s r dst w c ed n db :
  create e s r dst w c ed n db =
  if storage_ok e 0 then
    if stored (default_tracking_number e) db then (Raise IntegrityError, db)
    else
      let db1 := with_row db (inserted_row e db s r dst w c ed n) in
      if storage_ok e 1 then
        (Ok (returned_delivery e db s r dst w c ed n),
         with_event e db1 (seq_deliveries db + 1) "pending" "" "Shipment created")
      else (Raise OperationalError, db1)
  else (Raise OperationalError, db).
Proof.
  unfold create, bind, insert_delivery, _log_event, transaction, ret,
    inserted_row, returned_delivery, with_row, with_event.
  generalize (default_tracking_number e) as tn; intros tn.
  cbn [Delivery.tracking_number Delivery.set_id Delivery.id Delivery.status
       Delivery.sender Delivery.recipient Delivery.destination Delivery.weight_kg
       Delivery.estimated_delivery Delivery.actual_delivery Delivery.courier
       Delivery.notes Delivery.created_at Delivery.updated_at bind_real value].
  destruct (storage_ok e 0); [|reflexivity].
  destruct (stored tn db); [reflexivity|].
  destruct (storage_ok e 1); reflexivity.
Qed.

Lemma update_row_tracking_number tn st a now r :
  Row.tracking_number (update_row tn st a now r) = Row.tracking_number r.
Proof. unfold update_row. destruct (_ =? _)%string; reflexivity. Qed.

Lemma update_row_id tn st a now r : Row.id (update_row tn st a now r) = Row.id r.
Proof. unfold update_row. destruct (_ =? _)%string; reflexivity. Qed.

Lemma update_row_other tn st a now r :
  Row.tracking_number r <> tn -> update_row tn st a now r = r.
Proof.
  intros H. unfold update_row.
  destruct (String.eqb_spec (Row.tracking_number r) tn); [contradiction|reflexivity].
Qed.

Lemma find_update_row tn st a now tn' rows :
  find (fun r => Row.tracking_number r =? tn')%string (map (update_row tn st a now) rows) =
  option_map (update_row tn st a now)
    (find (fun r => Row.tracking_number r =? tn')%string rows).
Proof.
  induction rows as [|r rows IH]; cbn; [reflexivity|].
  rewrite update_row_tracking_number.
  destruct (_ =? _)%string; [reflexivity|exact IH].
Qed.

Lemma stored_find tn db :
  stored tn db = false <->
  find (fun r => Row.tracking_number r =? tn)%string (deliveries db) = None.
Proof.
  unfold stored. induction (deliveries db) as [|r rows IH]; cbn; [tauto|].
  destruct (_ =? _)%string; cbn; [split; discriminate|exact IH].
Qed.

Lemma stored_false_iff tn db :
  stored tn db = false <->
  forall r, In r (deliveries db) -> Row.tracking_number r <> tn.
Proof.
  unfold stored. split.
  - intros H r Hr Heq.
    assert (existsb (fun r => Row.tracking_number r =? tn)%string (deliveries db) = true)
      as Ht by (apply existsb_exists; exists r; split; [exact Hr|now apply String.eqb_eq]).
    congruence.
  - intros H. destruct (existsb _ _) eqn:E; [|reflexivity].
    apply existsb_exists in E. destruct E as (r & Hr & Heq).
    apply String.eqb_eq in Heq. now elim (H r Hr).
Qed.

Lemma with_status_absent e db tn st :
  stored tn db = false -> with_status e db tn st = db.
Proof.
  intros H. unfold with_status. destruct db as [rows evs sd se]; cbn.
  f_equal. rewrite stored_false_iff in H; cbn in H.
  induction rows as [|r rows IH]; cbn; [reflexivity|].
  rewrite update_row_other by (apply H; now left).
  f_equal. apply IH. intros r' Hr'. apply H. now right.
Qed.

Lemma update_status_cases e tn st loc msg db :
  update_status e tn st loc msg db =
  if storage_ok e 0 then
    let db1 := with_status e db tn st in
    match find (fun r => Row.tracking_number r =? tn)%string (deliveries db1) with
    | None => (Ok None, db1)
    | Some row =>
        match _row_to_delivery row with
        | Raise x => (Raise x, db1)
        | Ok d =>
            if storage_ok e 1
            then (Ok (Some d), with_event e db1 (Row.id row) st loc msg)
            else (Raise OperationalError, db1)
        end
    end
  else (Raise OperationalError, db).
Proof.
  unfold update_status, bind, transaction, get, ret, with_status, with_event.
  destruct (storage_ok e 0); [|reflexivity].
  cbn.
  match goal with |- context [find ?p ?l] => destruct (find p l) as [row|] end;
    [|reflexivity].
  unfold _row_to_delivery.
  destruct (DeliveryStatus_of_value (Row.status row)); [|reflexivity].
  cbn. unfold transaction. destruct (storage_ok e 1); reflexivity.
Qed.

Lemma get_absent tn db : stored tn db = false -> get tn db = (Ok None, db).
Proof. intros H. unfold get. apply stored_find in H. now rewrite H. Qed.

(** ** Updating an unknown tracking number *)

(** C1, as the code has it: for a tracking number that identifies no stored
    Shipment, [update_status] does not raise a not-found error; like [get] it
    returns the absent result [None], and [history] returns the empty list. *)
Theorem update_status_unknown_returns_none e tn st loc msg db :
  stored tn db = false ->
  storage_ok e 0 = true ->
  fst (update_status e tn st loc msg db) = Ok None /\
  fst (get tn db) = Ok None /\
  fst (history tn db) = Ok [].
Proof.
  intros Habs Hok. rewrite update_status_cases, Hok. cbn zeta.
  rewrite with_status_absent by exact Habs.
  unfold history, bind. rewrite get_absent by exact Habs.
  apply stored_find in Habs. rewrite Habs. now repeat split.
Qed.

Lemma update_status_unknown_returns_none_witness :
  stored "BR0000000000" init_db = false /\
  fst (update_status calm "BR0000000000" "delivered" "" "" init_db) = Ok None.
Proof.
  split; [reflexivity|].
  apply (update_status_unknown_returns_none calm "BR0000000000" "delivered" "" "" init_db);
    reflexivity.
Defined.

(** C1 as stated fails: on a store without the tracking number the call
    returns normally, with [None], instead of raising. *)
Lemma update_status_unknown_does_not_raise :
  stored "BR0000000000" init_db = false /\
  update_status calm "BR0000000000" "delivered" "" "" init_db = (Ok None, init_db) /\
  ~ (exists x, fst (update_status calm "BR0000000000" "delivered" "" "" init_db) = Raise x).
Proof.
  split; [reflexivity|]. split; [reflexivity|].
  intros [x Hx]. vm_compute in Hx. discriminate.
Qed.

(** C10: for a tracking number that identifies no stored Shipment,
    [update_status] leaves the whole store as it was (no row of [deliveries]
    changes, no event is appended), and when the write transaction goes
    through it returns the absent result [None]. *)
Theorem update_status_unknown_frame e tn st loc msg db :
  stored tn db = false ->
  snd (update_status e tn st loc msg db) = db /\
  (storage_ok e 0 = true -> update_status e tn st loc msg db = (Ok None, db)).
Proof.
  intros Habs. rewrite update_status_cases.
  destruct (storage_ok e 0); cbn zeta.
  - rewrite with_status_absent by exact Habs.
    apply stored_find in Habs. rewrite Habs. now split.
  - split; [reflexivity|discriminate].
Qed.

Lemma update_status_unknown_frame_witness :
  stored "BRZZZZZZZZZZ" one_parcel = false /\
  storage_ok later 0 = true /\
  update_status later "BRZZZZZZZZZZ" "delivered" "Depot A" "" one_parcel
    = (Ok None, one_parcel).
Proof.
  split; [reflexivity|]. split; [reflexivity|].
  apply (update_status_unknown_frame later "BRZZZZZZZZZZ" "delivered" "Depot A" ""
           one_parcel); reflexivity.
Defined.

(** ** Creation *)

(** C2, as the code has it: [create] checks none of its arguments.  Whatever
    sender, recipient and destination are, the empty string included, when
    the generated tracking number is not stored yet and both writes go
    through, [create] returns the new Shipment, in status Pending, and the
    store gains one row and one creation event. *)
Theorem create_accepts_any_text e s r dst w c ed n db :
  stored (default_tracking_number e) db = false ->
  storage_ok e 0 = true ->
  storage_ok e 1 = true ->
  exists d db',
    create e s r dst w c ed n db = (Ok d, db') /\
    Delivery.sender d = s /\ Delivery.recipient d = r /\
    Delivery.destination d = dst /\ Delivery.status d = PENDING /\
    deliveries db' = (deliveries db ++ [inserted_row e db s r dst w c ed n])%list /\
    tracking_events db' =
      (tracking_events db ++
         [Event.make (seq_tracking_events db + 1) (seq_deliveries db + 1)
            "pending" "" "Shipment created" (clock e 1)])%list.
Proof.
  intros Hfresh Hw Hl. rewrite create_cases, Hfresh, Hw, Hl.
  eexists; eexists; split; [reflexivity|].
  cbn. now repeat split.
Qed.

Lemma create_accepts_any_text_witness :
  exists d db',
    create calm "" "" "" 0%float "" None "" init_db = (Ok d, db') /\
    Delivery.sender d = "" /\ Delivery.recipient d = "" /\
    Delivery.destination d = "" /\ Delivery.status d = PENDING /\
    deliveries db' =
      (deliveries init_db ++ [inserted_row calm init_db "" "" "" 0%float "" None ""])%list /\
    tracking_events db' =
      (tracking_events init_db ++
         [Event.make (seq_tracking_events init_db + 1) (seq_deliveries init_db + 1)
            "pending" "" "Shipment created" (clock calm 1)])%list.
Proof.
  apply (create_accepts_any_text calm "" "" "" 0%float "" None "" init_db); reflexivity.
Defined.

(** C2 as stated fails: with sender, recipient and destination all empty,
    [create] returns a Shipment, and a row and an event are stored. *)
Lemma create_empty_fields_is_stored :
  exists d db',
    create calm "" "" "" 0%float "" None "" init_db = (Ok d, db') /\
    Delivery.sender d = "" /\ Delivery.recipient d = "" /\ Delivery.destination d = "" /\
    List.length (deliveries db') = 1%nat /\ List.length (tracking_events db') = 1%nat.
Proof.
  eexists; eexists; split; [vm_compute; reflexivity|].
  now repeat split.
Qed.




(** ** Consistency is kept by every call *)

Lemma consistent_init : consistent init_db.
Proof.
  split; cbn; try constructor; try lia; intros ? [].
Qed.

Lemma consistent_with_row db r :
  consistent db ->
  stored (Row.tracking_number r) db = false ->
  Row.id r = seq_deliveries db + 1 ->
  consistent (with_row db r).
Proof.
  intros [Hs Hr Hi Ht Hp] Hfresh Hid.
  rewrite stored_false_iff in Hfresh.
  split; cbn.
  - lia.
  - intros r' Hr'. apply in_app_or in Hr' as [Hr'|[<-|[]]]; [|lia].
    specialize (Hr r' Hr'). lia.
  - rewrite map_app; cbn. apply NoDup_app; [exact Hi|repeat constructor; intros []|].
    intros i Hin [<-|[]]. apply in_map_iff in Hin as (r' & Heq & Hr').
    specialize (Hr r' Hr'). lia.
  - rewrite map_app; cbn. apply NoDup_app; [exact Ht|repeat constructor; intros []|].
    intros t Hin [<-|[]]. apply in_map_iff in Hin as (r' & Heq & Hr').
    now apply (Hfresh r' Hr').
  - intros ev Hev. destruct (Hp ev Hev) as (r' & Hr' & Heq).
    exists r'. split; [apply in_or_app; now left|exact Heq].
Qed.

Lemma consistent_with_event e db did st loc msg :
  consistent db ->
  (exists r, In r (deliveries db) /\ Row.id r = did) ->
  consistent (with_event e db did st loc msg).
Proof.
  intros [Hs Hr Hi Ht Hp] Hparent. split; cbn; try assumption.
  intros ev Hev. apply in_app_or in Hev as [Hev|[<-|[]]]; [now apply Hp|exact Hparent].
Qed.

Lemma map_id_update_row tn st a now rows :
  map Row.id (map (update_row tn st a now) rows) = map Row.id rows.
Proof.
  rewrite map_map. apply map_ext. intros r. apply update_row_id.
Qed.

Lemma map_tracking_number_update_row tn st a now rows :
  map Row.tracking_number (map (update_row tn st a now) rows) =
  map Row.tracking_number rows.
Proof.
  rewrite map_map. apply map_ext. intros r. apply update_row_tracking_number.
Qed.

Lemma consistent_with_status e db tn st :
  consistent db -> consistent (with_status e db tn st).
Proof.
  intros [Hs Hr Hi Ht Hp]. split; cbn.
  - exact Hs.
  - intros r Hin. apply in_map_iff in Hin as (r0 & <- & Hr0).
    rewrite update_row_id. now apply Hr.
  - now rewrite map_id_update_row.
  - now rewrite map_tracking_number_update_row.
  - intros ev Hev. destruct (Hp ev Hev) as (r & Hin & Heq).
    eexists. split; [apply in_map; exact Hin|]. now rewrite update_row_id.
Qed.

Lemma perform_create e s r dst w c ed n db :
  perform e (Create s r dst w c ed n) db =
  if stored (default_tracking_number e) db then db
  else if storage_ok e 0 then
    let db1 := with_row db (inserted_row e db s r dst w c ed n) in
    if storage_ok e 1
    then with_event e db1 (seq_deliveries db + 1) "pending" "" "Shipment created"
    else db1
  else db.
Proof.
  unfold perform. rewrite create_cases.
  destruct (stored _ db), (storage_ok e 0); try reflexivity.
  cbn zeta. destruct (storage_ok e 1); reflexivity.
Qed.

Lemma perform_update_status e tn st loc msg db :
  perform e (UpdateStatus tn st loc msg) db =
  if storage_ok e 0 then
    let db1 := with_status e db tn st in
    match find (fun r => Row.tracking_number r =? tn)%string (deliveries db1) with
    | None => db1
    | Some row =>
        match _row_to_delivery row with
        | Raise _ => db1
        | Ok _ => if storage_ok e 1 then with_event e db1 (Row.id row) st loc msg else db1
        end
    end
  else db.
Proof.
  unfold perform. rewrite update_status_cases.
  destruct (storage_ok e 0); [|reflexivity].
  cbn zeta. destruct (find _ _) as [row|]; [|reflexivity].
  destruct (_row_to_delivery row); [|reflexivity].
  destruct (storage_ok e 1); reflexivity.
Qed.

Lemma consistent_perform e c db : consistent db -> consistent (perform e c db).
Proof.
  intros H. destruct c as [s r dst w c ed n|tn st loc msg].
  - rewrite perform_create.
    destruct (stored _ db) eqn:Hfresh; [exact H|].
    destruct (storage_ok e 0); [|exact H].
    assert (consistent (with_row db (inserted_row e db s r dst w c ed n))) as H1
      by (apply consistent_with_row; [exact H|exact Hfresh|reflexivity]).
    cbn zeta. destruct (storage_ok e 1); [|exact H1].
    apply consistent_with_event; [exact H1|].
    eexists. split; [cbn; apply in_or_app; right; left; reflexivity|reflexivity].
  - rewrite perform_update_status.
    destruct (storage_ok e 0); [|exact H].
    pose proof (consistent_with_status e db tn st H) as H1.
    cbn zeta. destruct (find _ _) as [row|] eqn:Hf; [|exact H1].
    destruct (_row_to_delivery row); [|exact H1].
    destruct (storage_ok e 1); [|exact H1].
    apply consistent_with_event; [exact H1|].
    apply find_some in Hf as [Hin _]. now exists row.
Qed.

Lemma consistent_store_after run : consistent (store_after run).
Proof.
  induction run as [|[e c] earlier IH]; cbn.
  - apply consistent_init.
  - now apply consistent_perform.
Qed.

(** ** Tracking numbers *)

Lemma length_string_of_list_ascii l :
  String.length (string_of_list_ascii l) = List.length l.
Proof. induction l as [|a l IH]; cbn; [reflexivity|now rewrite IH]. Qed.

Lemma population_upper_or_digit k :
  (k < 36)%nat ->
  upper_or_digit (nth k (list_ascii_of_string population) "000"%char) = true.
Proof.
  intros H. do 36 (destruct k as [|k]; [reflexivity|]). lia.
Qed.

Lemma choices_length pop k rnd : List.length (choices pop k rnd) = k.
Proof. unfold choices. now rewrite length_map, length_seq. Qed.

Lemma default_tracking_number_well_shaped e :
  well_shaped (default_tracking_number e) = true.
Proof.
  unfold default_tracking_number.
  change ("BR" ++ ?x) with (String "B" (String "R" x)).
  unfold well_shaped.
  rewrite length_string_of_list_ascii, choices_length,
    list_ascii_of_string_of_list_ascii.
  cbn [Nat.eqb andb]. apply forallb_forall. intros ch Hch.
  unfold choices in Hch. apply in_map_iff in Hch as (i & <- & _).
  apply population_upper_or_digit.
  change (String.length population) with 36%nat.
  apply Nat.mod_upper_bound. discriminate.
Qed.

Lemma create_returns e s r dst w c ed n db d db' :
  create e s r dst w c ed n db = (Ok d, db') ->
  stored (default_tracking_number e) db = false /\
  storage_ok e 0 = true /\ storage_ok e 1 = true /\
  d = returned_delivery e db s r dst w c ed n /\
  db' = with_event e (with_row db (inserted_row e db s r dst w c ed n))
          (seq_deliveries db + 1) "pending" "" "Shipment created".
Proof.
  rewrite create_cases.
  destruct (storage_ok e 0); [|discriminate].
  destruct (stored _ db); [discriminate|].
  cbn zeta. destruct (storage_ok e 1); [|discriminate].
  intros H. injection H as <- <-. now repeat split.
Qed.

(** ** Decoding rows *)

Lemma DeliveryStatus_of_value_value s : DeliveryStatus_of_value (value s) = Ok s.
Proof. destruct s; reflexivity. Qed.

Lemma DeliveryStatus_of_value_ok v s : DeliveryStatus_of_value v = Ok s -> value s = v.
Proof.
  unfold DeliveryStatus_of_value.
  destruct (find _ members) as [s'|] eqn:E; [|discriminate].
  intros H; injection H as ->.
  apply find_some in E as [_ E]. now apply String.eqb_eq.
Qed.

Lemma DeliveryStatus_of_value_undeclared v :
  (forall s, value s <> v) -> DeliveryStatus_of_value v = Raise ValueError.
Proof.
  intros H. unfold DeliveryStatus_of_value.
  destruct (find _ members) as [s|] eqn:E; [|reflexivity].
  apply find_some in E as [_ E]. apply String.eqb_eq in E. now elim (H s).
Qed.

Lemma DeliveryStatus_of_value_raises v x :
  DeliveryStatus_of_value v = Raise x -> x = ValueError.
Proof.
  unfold DeliveryStatus_of_value. destruct (find _ members); [discriminate|].
  now intros H; injection H.
Qed.

Lemma _row_to_delivery_raises r x : _row_to_delivery r = Raise x -> x = ValueError.
Proof.
  unfold _row_to_delivery.
  destruct (DeliveryStatus_of_value (Row.status r)) eqn:E; [discriminate|].
  intros H; injection H as <-. now apply DeliveryStatus_of_value_raises in E.
Qed.

Lemma _row_to_delivery_undeclared r :
  (forall s, value s <> Row.status r) -> _row_to_delivery r = Raise ValueError.
Proof.
  intros H. unfold _row_to_delivery.
  now rewrite DeliveryStatus_of_value_undeclared.
Qed.

Lemma rows_to_deliveries_raises rows r :
  In r rows -> _row_to_delivery r = Raise ValueError ->
  rows_to_deliveries rows = Raise ValueError.
Proof.
  intros Hin Hr. induction rows as [|r0 rows IH]; [destruct Hin|].
  cbn. destruct (_row_to_delivery r0) as [d0|x] eqn:E0.
  - destruct Hin as [->|Hin]; [congruence|]. now rewrite IH.
  - now apply _row_to_delivery_raises in E0 as ->.
Qed.

(** ** ORDER BY returns the same rows, in order *)

Lemma insert_by_perm {A} (le : A -> A -> bool) x l :
  Permutation (insert_by le x l) (x :: l).
Proof.
  induction l as [|y l IH]; cbn; [reflexivity|].
  destruct (le x y); [reflexivity|].
  rewrite IH. apply perm_swap.
Qed.

Lemma order_by_perm {A} (le : A -> A -> bool) l : Permutation (order_by le l) l.
Proof.
  induction l as [|x l IH]; cbn; [reflexivity|].
  rewrite insert_by_perm. now constructor.
Qed.

Lemma order_by_length {A} (le : A -> A -> bool) l :
  List.length (order_by le l) = List.length l.
Proof. apply Permutation_length, order_by_perm. Qed.

Section Ordered.
Context {A : Type} (le : A -> A -> bool).
Hypothesis le_total : forall a b, le a b = true \/ le b a = true.
Hypothesis le_trans : forall a b c, le a b = true -> le b c = true -> le a c = true.

Lemma insert_by_sorted x l :
  StronglySorted (fun a b => le a b = true) l ->
  StronglySorted (fun a b => le a b = true) (insert_by le x l).
Proof.
  induction 1 as [|y l Hs IH Hall]; cbn; [repeat constructor|].
  destruct (le x y) eqn:E.
  - constructor; [now constructor|].
    constructor; [exact E|].
    eapply Forall_impl; [|exact Hall]. intros z Hz. now apply le_trans with y.
  - constructor; [exact IH|].
    assert (le y x = true) as Hyx by (destruct (le_total x y); congruence).
    eapply Permutation_Forall; [symmetry; apply insert_by_perm|].
    now constructor.
Qed.

Lemma order_by_sorted l : StronglySorted (fun a b => le a b = true) (order_by le l).
Proof.
  induction l as [|x l IH]; cbn; [constructor|now apply insert_by_sorted].
Qed.
End Ordered.

(** The byte-wise order of TEXT values is transitive. *)
Lemma string_compare_le_trans a b c :
  String.compare a b <> Gt -> String.compare b c <> Gt -> String.compare a c <> Gt.
Proof.
  revert b c. induction a as [|x a IH]; intros [|y b] [|z c]; cbn; try congruence.
  unfold Ascii.compare.
  destruct (N.compare_spec (N_of_ascii x) (N_of_ascii y)) as [Hxy|Hxy|Hxy];
    destruct (N.compare_spec (N_of_ascii y) (N_of_ascii z)) as [Hyz|Hyz|Hyz];
    destruct (N.compare_spec (N_of_ascii x) (N_of_ascii z)) as [Hxz|Hxz|Hxz];
    try congruence; try lia.
  apply IH.
Qed.

Lemma string_leb_trans a b c :
  String.leb a b = true -> String.leb b c = true -> String.leb a c = true.
Proof.
  unfold String.leb. intros Hab Hbc.
  pose proof (string_compare_le_trans a b c) as H.
  destruct (String.compare a b), (String.compare b c), (String.compare a c);
    try reflexivity; try discriminate; exfalso; apply H; congruence.
Qed.

Lemma updated_at_desc_total a b :
  updated_at_desc a b = true \/ updated_at_desc b a = true.
Proof. apply String.leb_total. Qed.

Lemma updated_at_desc_trans a b c :
  updated_at_desc a b = true -> updated_at_desc b c = true -> updated_at_desc a c = true.
Proof. unfold updated_at_desc. intros H1 H2. now apply string_leb_trans with (Row.updated_at b). Qed.

(** ** Listing *)

Lemma _row_to_delivery_declared r s :
  Row.status r = value s ->
  exists d, _row_to_delivery r = Ok d /\ Delivery.status d = s.
Proof.
  intros H. unfold _row_to_delivery.
  rewrite H, DeliveryStatus_of_value_value. now eexists.
Qed.

Lemma _row_to_delivery_fields r d :
  _row_to_delivery r = Ok d ->
  Delivery.updated_at d = Row.updated_at r /\
  Delivery.tracking_number d = Row.tracking_number r /\
  Delivery.actual_delivery d = Row.actual_delivery r /\
  Delivery.id d = Some (Row.id r) /\
  value (Delivery.status d) = Row.status r.
Proof.
  unfold _row_to_delivery.
  destruct (DeliveryStatus_of_value (Row.status r)) as [s|] eqn:E; [|discriminate].
  intros H; injection H as <-. cbn.
  apply DeliveryStatus_of_value_ok in E. now repeat split.
Qed.

Lemma rows_to_deliveries_ok rows :
  (forall r, In r rows -> exists s, Row.status r = value s) ->
  exists ds, rows_to_deliveries rows = Ok ds /\ Forall2 decodes_to rows ds.
Proof.
  induction rows as [|r rows IH]; intros H; cbn.
  - exists []. now split.
  - destruct (H r (or_introl eq_refl)) as [s Hs].
    destruct (_row_to_delivery_declared r s Hs) as (d & Hd & _).
    destruct IH as (ds & Hds & Hall); [intros r' Hr'; apply H; now right|].
    rewrite Hd, Hds. exists (d :: ds). split; [reflexivity|now constructor].
Qed.

Lemma decoded_sorted rows ds :
  Forall2 decodes_to rows ds ->
  StronglySorted (fun a b => updated_at_desc a b = true) rows ->
  StronglySorted most_recent_first ds.
Proof.
  induction 1 as [|r d rows ds Hd Hall IH]; intros Hs; [constructor|].
  apply StronglySorted_inv in Hs as [Hs Hr].
  constructor; [now apply IH|].
  apply _row_to_delivery_fields in Hd as (Hu & _).
  clear IH Hs. induction Hall as [|r' d' rows ds Hd' Hall IH]; [constructor|].
  apply Forall_cons_iff in Hr as [Hr1 Hr2].
  constructor; [|now apply IH].
  apply _row_to_delivery_fields in Hd' as (Hu' & _).
  unfold most_recent_first. rewrite Hu, Hu'. exact Hr1.
Qed.

Lemma list_deliveries_rows status db rows :
  rows = match truthy status with
         | Some s => filter (fun r => Row.status r =? s)%string (deliveries db)
         | None => deliveries db
         end ->
  (forall r, In r rows -> exists s, Row.status r = value s) ->
  exists ds sorted,
    list_deliveries status db = (Ok ds, db) /\
    Forall2 decodes_to sorted ds /\
    Permutation sorted rows /\
    StronglySorted most_recent_first ds.
Proof.
  intros Hrows Hdecl. unfold list_deliveries. rewrite <- Hrows.
  destruct (rows_to_deliveries_ok (order_by updated_at_desc rows)) as (ds & Hds & Hall).
  { intros r Hr. apply Hdecl.
    eapply Permutation_in; [apply order_by_perm|exact Hr]. }
  exists ds, (order_by updated_at_desc rows). rewrite Hds.
  split; [reflexivity|]. split; [exact Hall|]. split; [apply order_by_perm|].
  eapply decoded_sorted; [exact Hall|].
  apply order_by_sorted; [apply updated_at_desc_total|apply updated_at_desc_trans].
Qed.

Lemma truthy_value s : truthy (Some (value s)) = Some (value s).
Proof. destruct s; reflexivity. Qed.

(** C7, as the code has it: for every declared status [s],
    [list_deliveries] with the filter [s] returns exactly the stored
    Shipments whose status is [s]; with no filter it returns all stored
    Shipments when every stored status is a declared one (a row with any
    other status cannot be decoded and the call raises).  In both cases the
    result is in descending order of [updated_at]. *)
Theorem list_deliveries_filtered_and_ordered db :
  (forall s,
     exists ds rows,
       list_deliveries (Some (value s)) db = (Ok ds, db) /\
       Forall2 decodes_to rows ds /\
       Permutation rows
         (filter (fun r => Row.status r =? value s)%string (deliveries db)) /\
       Forall (fun d => Delivery.status d = s) ds /\
       StronglySorted most_recent_first ds) /\
  (statuses_declared db ->
     exists ds rows,
       list_deliveries None db = (Ok ds, db) /\
       Forall2 decodes_to rows ds /\
       Permutation rows (deliveries db) /\
       StronglySorted most_recent_first ds).
Proof.
  split.
  - intros s.
    assert (forall r, In r (filter (fun r => Row.status r =? value s)%string (deliveries db)) ->
                      Row.status r = value s) as Hst
      by (intros r Hr; apply filter_In in Hr as [_ Hr]; now apply String.eqb_eq).
    destruct (list_deliveries_rows (Some (value s)) db _ eq_refl)
      as (ds & rows & Hl & Hall & Hperm & Hsorted).
    { rewrite truthy_value. intros r Hr. exists s. now apply Hst. }
    rewrite truthy_value in Hperm.
    exists ds, rows. repeat split; try assumption.
    assert (forall r, In r rows -> Row.status r = value s) as Hrows
      by (intros r Hr; apply Hst; eapply Permutation_in; [exact Hperm|exact Hr]).
    clear - Hall Hrows. induction Hall as [|r d rows ds Hd Hall IH]; [constructor|].
    constructor; [|apply IH; intros r' Hr'; apply Hrows; now right].
    destruct (_row_to_delivery_declared r s (Hrows r (or_introl eq_refl)))
      as (d' & Hd' & Hs).
    unfold decodes_to in Hd. congruence.
  - intros Hdecl.
    destruct (list_deliveries_rows None db _ eq_refl Hdecl)
      as (ds & rows & Hl & Hall & Hperm & Hsorted).
    now exists ds, rows.
Qed.

Lemma list_deliveries_filtered_and_ordered_witness :
  statuses_declared two_parcels /\
  exists ds rows,
    list_deliveries None two_parcels = (Ok ds, two_parcels) /\
    Forall2 decodes_to rows ds /\
    Permutation rows (deliveries two_parcels) /\
    StronglySorted most_recent_first ds.
Proof.
  assert (statuses_declared two_parcels) as H
    by (intros r [<-|[<-|[]]]; exists PENDING; reflexivity).
  split; [exact H|].
  exact (proj2 (list_deliveries_filtered_and_ordered two_parcels) H).
Defined.

(** C7 as stated fails: after a run of [create] and [update_status] that
    stored the status ["lost"], listing with no filter raises instead of
    returning the stored Shipment. *)
Lemma list_deliveries_unfiltered_raises :
  List.length (deliveries lost_parcel) = 1%nat /\
  list_deliveries None lost_parcel = (Raise ValueError, lost_parcel) /\
  ~ (exists ds, list_deliveries None lost_parcel = (Ok ds, lost_parcel)).
Proof.
  split; [reflexivity|]. split; [reflexivity|].
  intros [ds H]. vm_compute in H. discriminate.
Qed.

(** ** A status outside the enumeration *)

Lemma find_stored tn db :
  stored tn db = true ->
  exists r, find (fun r => Row.tracking_number r =? tn)%string (deliveries db) = Some r /\
            Row.tracking_number r = tn.
Proof.
  intros H. destruct (find _ (deliveries db)) as [r|] eqn:E.
  - exists r. split; [reflexivity|].
    apply find_some in E as [_ E]. now apply String.eqb_eq.
  - apply stored_find in E. congruence.
Qed.

Lemma update_row_same tn st a now r :
  Row.tracking_number r = tn ->
  Row.status (update_row tn st a now r) = st /\
  Row.updated_at (update_row tn st a now r) = now /\
  Row.actual_delivery (update_row tn st a now r) =
    match a with Some x => Some x | None => Row.actual_delivery r end.
Proof.
  intros H. unfold update_row. rewrite H, String.eqb_refl. now repeat split.
Qed.

Lemma truthy_nonempty st : st <> "" -> truthy (Some st) = Some st.
Proof. destruct st; [congruence|reflexivity]. Qed.

(** C9: [update_status] does not check [new_status] against the eight
    declared values.  For a stored Shipment and a string outside them
    (["lost"], say), the call commits the new status and then raises
    [ValueError] on reading the row back; no event has been appended; and
    on the store it leaves, [get] of that Shipment and every listing that
    covers it (no filter, or the filter on that string) raise [ValueError]. *)
Theorem update_status_undeclared_status e tn st loc msg db :
  stored tn db = true ->
  (forall s, value s <> st) ->
  storage_ok e 0 = true ->
  exists db' row,
    update_status e tn st loc msg db = (Raise ValueError, db') /\
    In row (deliveries db') /\ Row.tracking_number row = tn /\ Row.status row = st /\
    tracking_events db' = tracking_events db /\
    get tn db' = (Raise ValueError, db') /\
    list_deliveries None db' = (Raise ValueError, db') /\
    (st <> "" -> list_deliveries (Some st) db' = (Raise ValueError, db')).
Proof.
  intros Hst Hund Hok.
  destruct (find_stored tn db Hst) as (r0 & Hf & Htn).
  set (db' := with_status e db tn st).
  set (row := update_row tn st
                (if (st =? "delivered")%string then Some (clock e 0) else None)
                (clock e 0) r0).
  assert (find (fun r => Row.tracking_number r =? tn)%string (deliveries db') = Some row)
    as Hf' by (unfold db', with_status; cbn; now rewrite find_update_row, Hf).
  assert (Row.status row = st) as Hrow by (now apply update_row_same).
  assert (_row_to_delivery row = Raise ValueError) as Hdec
    by (apply _row_to_delivery_undeclared; now rewrite Hrow).
  assert (In row (deliveries db')) as Hin by (now apply find_some in Hf' as [? _]).
  exists db', row. repeat split.
  - rewrite update_status_cases, Hok. cbn zeta. fold db'. now rewrite Hf', Hdec.
  - exact Hin.
  - unfold row. now rewrite update_row_tracking_number.
  - exact Hrow.
  - unfold get. now rewrite Hf', Hdec.
  - unfold list_deliveries. cbn. f_equal.
    apply rows_to_deliveries_raises with row; [|exact Hdec].
    eapply Permutation_in; [symmetry; apply order_by_perm|exact Hin].
  - intros Hne. unfold list_deliveries. rewrite truthy_nonempty by exact Hne. f_equal.
    apply rows_to_deliveries_raises with row; [|exact Hdec].
    eapply Permutation_in; [symmetry; apply order_by_perm|].
    apply filter_In. split; [exact Hin|]. now apply String.eqb_eq.
Qed.

Lemma update_status_undeclared_status_witness :
  stored "BRAAAAAAAAAA" one_parcel = true /\
  (forall s, value s <> "lost") /\
  exists db' row,
    update_status later "BRAAAAAAAAAA" "lost" "" "" one_parcel = (Raise ValueError, db') /\
    In row (deliveries db') /\ Row.tracking_number row = "BRAAAAAAAAAA" /\
    Row.status row = "lost" /\
    tracking_events db' = tracking_events one_parcel /\
    get "BRAAAAAAAAAA" db' = (Raise ValueError, db') /\
    list_deliveries None db' = (Raise ValueError, db') /\
    ("lost" <> "" -> list_deliveries (Some "lost") db' = (Raise ValueError, db')).
Proof.
  assert (forall s, value s <> "lost") as H by (intros []; discriminate).
  split; [reflexivity|]. split; [exact H|].
  apply (update_status_undeclared_status later "BRAAAAAAAAAA" "lost" "" "" one_parcel);
    [reflexivity|exact H|reflexivity].
Defined.

(** ** What a call does to the rows *)

Lemma perform_deliveries e c db :
  deliveries (perform e c db) = deliveries db \/
  (exists s r dst w co ed n,
     c = Create s r dst w co ed n /\
     stored (default_tracking_number e) db = false /\
     deliveries (perform e c db) =
       (deliveries db ++ [inserted_row e db s r dst w co ed n])%list) \/
  (exists tn st loc msg,
     c = UpdateStatus tn st loc msg /\
     deliveries (perform e c db) =
       map (update_row tn st
              (if (st =? "delivered")%string then Some (clock e 0) else None)
              (clock e 0))
           (deliveries db)).
Proof.
  destruct c as [s r dst w co ed n|tn st loc msg].
  - rewrite perform_create.
    destruct (stored _ db) eqn:Hfresh; [now left|].
    destruct (storage_ok e 0); [|now left].
    right; left. exists s, r, dst, w, co, ed, n.
    split; [reflexivity|]. split; [reflexivity|].
    cbn zeta. destruct (storage_ok e 1); reflexivity.
  - rewrite perform_update_status.
    destruct (storage_ok e 0); [|now left].
    right; right. exists tn, st, loc, msg. split; [reflexivity|].
    cbn zeta. destruct (find _ _) as [row|]; [|reflexivity].
    destruct (_row_to_delivery row); [|reflexivity].
    destruct (storage_ok e 1); reflexivity.
Qed.

Lemma NoDup_map_injective {A B} (f : A -> B) l a b :
  NoDup (map f l) -> In a l -> In b l -> f a = f b -> a = b.
Proof.
  induction l as [|x l IH]; cbn; [intros _ []|].
  intros Hnd Ha Hb Hf. inversion Hnd as [|? ? Hx Hnd']; subst.
  destruct Ha as [->|Ha], Hb as [->|Hb].
  - reflexivity.
  - elim Hx. rewrite Hf. now apply in_map.
  - elim Hx. rewrite <- Hf. now apply in_map.
  - now apply IH.
Qed.

Lemma delivered_now_row db r :
  consistent db -> In r (deliveries db) ->
  delivered_now (Row.id r) db = (Row.status r =? "delivered")%string.
Proof.
  intros Hc Hin. unfold delivered_now. cbn [value].
  destruct (Row.status r =? "delivered")%string eqn:E.
  - apply existsb_exists. exists r. now rewrite Z.eqb_refl, E.
  - destruct (existsb _ _) eqn:Hex; [|reflexivity].
    apply existsb_exists in Hex as (r' & Hin' & H).
    apply andb_true_iff in H as [Hid Hst]. apply Z.eqb_eq in Hid.
    assert (r' = r) as ->
      by (eapply NoDup_map_injective; [apply (ids_distinct db Hc)| | |]; assumption).
    congruence.
Qed.

Lemma delivered_now_ever id run :
  delivered_now id (store_after run) = true -> ever_delivered id run = true.
Proof.
  destruct run as [|step earlier]; [discriminate|].
  intros H. change (delivered_now id (store_after (step :: earlier))
                    || ever_delivered id earlier = true).
  now rewrite H.
Qed.

Lemma perform_keeps_ids e c db i :
  In i (map Row.id (deliveries db)) -> In i (map Row.id (deliveries (perform e c db))).
Proof.
  intros H.
  destruct (perform_deliveries e c db)
    as [->|[(s & r & dst & w & co & ed & n & _ & _ & ->)|(tn & st & loc & msg & _ & ->)]].
  - exact H.
  - rewrite map_app. apply in_or_app. now left.
  - now rewrite map_id_update_row.
Qed.

Lemma ever_delivered_stored id run :
  ever_delivered id run = true -> In id (map Row.id (deliveries (store_after run))).
Proof.
  induction run as [|[e c] earlier IH]; [discriminate|].
  intros H. change (delivered_now id (store_after ((e, c) :: earlier))
                    || ever_delivered id earlier = true) in H.
  apply orb_true_iff in H as [H|H].
  - unfold delivered_now in H. apply existsb_exists in H as (r & Hin & H).
    apply andb_true_iff in H as [Hid _]. apply Z.eqb_eq in Hid. subst id.
    now apply in_map.
  - cbn [store_after]. apply perform_keeps_ids. now apply IH.
Qed.

Lemma ever_delivered_step step earlier r :
  In r (deliveries (store_after (step :: earlier))) ->
  ever_delivered (Row.id r) (step :: earlier) =
  (Row.status r =? "delivered")%string || ever_delivered (Row.id r) earlier.
Proof.
  intros Hin.
  change (ever_delivered (Row.id r) (step :: earlier))
    with (delivered_now (Row.id r) (store_after (step :: earlier))
          || ever_delivered (Row.id r) earlier).
  rewrite delivered_now_row; [reflexivity|apply consistent_store_after|exact Hin].
Qed.

Lemma delivered_row_ever run r :
  In r (deliveries (store_after run)) ->
  Row.status r = "delivered" -> ever_delivered (Row.id r) run = true.
Proof.
  intros Hin Hst. apply delivered_now_ever.
  rewrite delivered_now_row; [|apply consistent_store_after|exact Hin].
  now apply String.eqb_eq.
Qed.

(** In the store after any run, a row has an [actual_delivery] exactly when
    its Shipment was Delivered after some call of the run. *)
Lemma actual_delivery_iff_ever_delivered run r :
  In r (deliveries (store_after run)) ->
  Row.actual_delivery r <> None <-> ever_delivered (Row.id r) run = true.
Proof.
  revert r. induction run as [|[e c] earlier IH]; intros r Hin; [destruct Hin|].
  rewrite ever_delivered_step by exact Hin.
  cbn [store_after] in Hin.
  pose proof (consistent_store_after earlier) as Hc.
  set (db := store_after earlier) in *.
  assert (forall r0, In r0 (deliveries db) ->
            Row.actual_delivery r0 <> None <->
            (Row.status r0 =? "delivered")%string || ever_delivered (Row.id r0) earlier = true)
    as Hold.
  { intros r0 H0. rewrite (IH r0 H0). split; [intros ->; apply orb_true_r|].
    intros H. apply orb_true_iff in H as [H|H]; [|exact H].
    apply String.eqb_eq in H. now apply delivered_row_ever. }
  destruct (perform_deliveries e c db)
    as [Heq|[(s & r' & dst & w & co & ed & n & _ & Hfresh & Heq)
            |(tn & st & loc & msg & _ & Heq)]];
    rewrite Heq in Hin.
  - now apply Hold.
  - apply in_app_or in Hin as [Hin|[<-|[]]]; [now apply Hold|].
    cbn. split; [congruence|]. intros H.
    apply ever_delivered_stored, in_map_iff in H as (r0 & Hid & H0).
    apply (ids_in_range db Hc) in H0. lia.
  - apply in_map_iff in Hin as (r0 & <- & H0).
    rewrite update_row_id.
    destruct (String.eqb_spec (Row.tracking_number r0) tn) as [Htn|Htn].
    + destruct (update_row_same tn st
                  (if (st =? "delivered")%string then Some (clock e 0) else None)
                  (clock e 0) r0 Htn) as (-> & _ & ->).
      destruct (st =? "delivered")%string eqn:E; cbn [orb].
      * split; [reflexivity|discriminate].
      * now apply IH.
    + rewrite update_row_other by exact Htn. now apply Hold.
Qed.

(** ** A call of [update_status] that returns a Shipment *)

Lemma update_status_returns e tn st loc msg db d db' :
  update_status e tn st loc msg db = (Ok (Some d), db') ->
  exists r0,
    find (fun r => Row.tracking_number r =? tn)%string (deliveries db) = Some r0 /\
    Row.tracking_number r0 = tn /\
    _row_to_delivery
      (update_row tn st (if (st =? "delivered")%string then Some (clock e 0) else None)
         (clock e 0) r0) = Ok d /\
    db' = with_event e (with_status e db tn st) (Row.id r0) st loc msg /\
    storage_ok e 0 = true /\ storage_ok e 1 = true.
Proof.
  rewrite update_status_cases.
  destruct (storage_ok e 0); [|discriminate].
  cbn zeta. unfold with_status at 1. cbn [deliveries]. rewrite find_update_row.
  destruct (find _ (deliveries db)) as [r0|] eqn:Hf; cbn [option_map]; [|discriminate].
  destruct (_row_to_delivery _) as [d1|] eqn:Hd; [|discriminate].
  destruct (storage_ok e 1); [|discriminate].
  intros H. injection H as <- <-. exists r0.
  rewrite update_row_id. repeat split; try assumption.
  apply find_some in Hf as [_ Hf]. now apply String.eqb_eq.
Qed.

Lemma update_status_succeeds e tn st loc msg db s :
  stored tn db = true -> st = value s ->
  storage_ok e 0 = true -> storage_ok e 1 = true ->
  exists d db', update_status e tn st loc msg db = (Ok (Some d), db') /\
                Delivery.status d = s.
Proof.
  intros Hst -> Hw Hl. destruct (find_stored tn db Hst) as (r0 & Hf & Htn).
  rewrite update_status_cases, Hw. cbn zeta.
  unfold with_status at 1. cbn [deliveries]. rewrite find_update_row, Hf.
  cbn [option_map].
  destruct (_row_to_delivery_declared
              (update_row tn (value s)
                 (if (value s =? "delivered")%string then Some (clock e 0) else None)
                 (clock e 0) r0) s) as (d & Hd & Hs).
  { now apply update_row_same. }
  rewrite Hd, Hl. now eexists; eexists.
Qed.

Lemma get_after_update_status e tn st loc msg db d db' :
  update_status e tn st loc msg db = (Ok (Some d), db') ->
  get tn db' = (Ok (Some d), db').
Proof.
  intros H. apply update_status_returns in H as (r0 & Hf & _ & Hd & -> & _).
  unfold get, with_event, with_status. cbn [deliveries].
  now rewrite find_update_row, Hf; cbn [option_map]; rewrite Hd.
Qed.

(** ** Delivery time *)

(** C4: in the store after any run, a Shipment has an [actual_delivery]
    exactly when it was in status Delivered after some call of the run;
    [update_status] to Delivered returns the Shipment as Delivered with
    [actual_delivery] set to the current time; and [update_status] to any
    other status leaves the [actual_delivery] of every row as it was, so the
    Shipment it returns has the [actual_delivery] it had before. *)
Theorem actual_delivery_set_when_delivered_never_cleared :
  (forall run r,
     In r (deliveries (store_after run)) ->
     Row.actual_delivery r <> None <-> ever_delivered (Row.id r) run = true) /\
  (forall e tn loc msg db,
     stored tn db = true -> storage_ok e 0 = true -> storage_ok e 1 = true ->
     exists d db',
       update_status e tn "delivered" loc msg db = (Ok (Some d), db') /\
       get tn db' = (Ok (Some d), db') /\
       Delivery.status d = DELIVERED /\
       Delivery.actual_delivery d = Some (clock e 0)) /\
  (forall e tn st loc msg db,
     st <> "delivered" ->
     map Row.actual_delivery (deliveries (snd (update_status e tn st loc msg db))) =
       map Row.actual_delivery (deliveries db) /\
     forall d0 d db',
       get tn db = (Ok (Some d0), db) ->
       update_status e tn st loc msg db = (Ok (Some d), db') ->
       get tn db' = (Ok (Some d), db') /\
       Delivery.actual_delivery d = Delivery.actual_delivery d0).
Proof.
  split; [exact actual_delivery_iff_ever_delivered|]. split.
  - intros e tn loc msg db Hst Hw Hl.
    destruct (update_status_succeeds e tn "delivered" loc msg db DELIVERED
                Hst eq_refl Hw Hl) as (d & db' & Hup & Hs).
    exists d, db'. split; [exact Hup|].
    split; [now apply get_after_update_status in Hup|]. split; [exact Hs|].
    apply update_status_returns in Hup as (r0 & _ & Htn & Hd & _).
    apply _row_to_delivery_fields in Hd as (_ & _ & -> & _).
    now apply update_row_same.
  - intros e tn st loc msg db Hne.
    apply String.eqb_neq in Hne.
    split.
    + change (snd (update_status e tn st loc msg db))
        with (perform e (UpdateStatus tn st loc msg) db).
      destruct (perform_deliveries e (UpdateStatus tn st loc msg) db)
        as [->|[(s & r & dst & w & co & ed & n & Hc & _)
               |(tn' & st' & loc' & msg' & Hc & ->)]];
        [reflexivity|discriminate|].
      injection Hc as <- <- <- <-. rewrite Hne, map_map. apply map_ext.
      intros r. unfold update_row.
      destruct (Row.tracking_number r =? tn)%string; reflexivity.
    + intros d0 d db' Hget Hup.
      split; [now apply get_after_update_status in Hup|].
      apply update_status_returns in Hup as (r0 & Hf & Htn & Hd & _).
      unfold get in Hget. rewrite Hf in Hget.
      destruct (_row_to_delivery r0) as [d1|] eqn:Hd0; [|discriminate].
      injection Hget as ->.
      apply _row_to_delivery_fields in Hd as (_ & _ & -> & _).
      apply _row_to_delivery_fields in Hd0 as (_ & _ & -> & _).
      rewrite Hne. now apply update_row_same.
Qed.

Lemma actual_delivery_set_when_delivered_never_cleared_witness :
  (exists r,
     In r (deliveries (store_after delivered_then_in_transit)) /\
     Row.status r = "in_transit" /\
     ever_delivered (Row.id r) delivered_then_in_transit = true /\
     Row.actual_delivery r <> None) /\
  (exists d db',
     update_status later "BRAAAAAAAAAA" "delivered" "Front door" "" one_parcel
       = (Ok (Some d), db') /\
     get "BRAAAAAAAAAA" db' = (Ok (Some d), db') /\
     Delivery.status d = DELIVERED /\
     Delivery.actual_delivery d = Some (clock later 0)) /\
  "in_transit" <> "delivered" /\
  (exists d0 d db',
     get "BRAAAAAAAAAA" (store_after (tl delivered_then_in_transit))
       = (Ok (Some d0), store_after (tl delivered_then_in_transit)) /\
     update_status afterwards "BRAAAAAAAAAA" "in_transit" "" ""
       (store_after (tl delivered_then_in_transit)) = (Ok (Some d), db') /\
     Delivery.status d0 = DELIVERED /\ Delivery.status d = IN_TRANSIT /\
     Delivery.actual_delivery d0 = Some (clock later 0) /\
     Delivery.actual_delivery d = Delivery.actual_delivery d0).
Proof.
  pose proof actual_delivery_set_when_delivered_never_cleared as (Hever & Hset & Hkeep).
  assert ("in_transit" <> "delivered") as Hne by discriminate.
  split; [|split; [|split]].
  - eexists. split; [left; reflexivity|]. split; [reflexivity|].
    split; [reflexivity|].
    apply (proj2 (Hever delivered_then_in_transit _ (or_introl eq_refl))).
    reflexivity.
  - apply (Hset later "BRAAAAAAAAAA" "Front door" "" one_parcel); reflexivity.
  - exact Hne.
  - eexists; eexists; eexists.
    split; [reflexivity|]. split; [reflexivity|].
    split; [reflexivity|]. split; [reflexivity|]. split; [reflexivity|].
    apply (proj2 (Hkeep afterwards "BRAAAAAAAAAA" "in_transit" "" ""
                    (store_after (tl delivered_then_in_transit)) Hne)
             _ _ _ eq_refl eq_refl).
Defined.

(** ** The events of a Shipment *)

Lemma stored_with_row db r tn :
  stored tn (with_row db r) = stored tn db || (Row.tracking_number r =? tn)%string.
Proof. unfold stored, with_row; cbn. now rewrite existsb_app; cbn; rewrite orb_false_r. Qed.

Lemma stored_with_status e db tn0 st tn :
  stored tn (with_status e db tn0 st) = stored tn db.
Proof.
  unfold stored, with_status; cbn.
  induction (deliveries db) as [|r rows IH]; cbn; [reflexivity|].
  now rewrite update_row_tracking_number, IH.
Qed.

Lemma events_of_with_event e db did st loc msg i :
  events_of i (with_event e db did st loc msg) =
  (events_of i db ++
     if did =? i
     then [Event.make (seq_tracking_events db + 1) did st loc msg (clock e 1)]
     else [])%list.
Proof.
  unfold events_of, with_event; cbn. rewrite filter_app; cbn.
  now destruct (did =? i).
Qed.

Lemma events_of_fresh db i :
  consistent db -> seq_deliveries db < i -> events_of i db = [].
Proof.
  intros Hc Hi. unfold events_of.
  destruct (filter _ _) as [|ev evs] eqn:E; [reflexivity|].
  assert (In ev (ev :: evs)) as Hin by now left.
  rewrite <- E in Hin. apply filter_In in Hin as [Hin Hid]. apply Z.eqb_eq in Hid.
  destruct (events_have_parent db Hc ev Hin) as (r & Hr & Heq).
  apply (ids_in_range db Hc) in Hr. lia.
Qed.

Lemma history_cases tn db :
  history tn db =
  match find (fun r => Row.tracking_number r =? tn)%string (deliveries db) with
  | None => (Ok [], db)
  | Some r =>
      match _row_to_delivery r with
      | Raise x => (Raise x, db)
      | Ok _ => (Ok (order_by timestamp_asc (events_of (Row.id r) db)), db)
      end
  end.
Proof.
  unfold history, bind, get.
  destruct (find _ _) as [r|]; [|reflexivity].
  destruct (_row_to_delivery r) as [d|] eqn:Hd; [|reflexivity].
  apply _row_to_delivery_fields in Hd as (_ & _ & _ & -> & _). reflexivity.
Qed.

Lemma find_app_fresh tn rows r :
  (forall r', In r' rows -> Row.tracking_number r' <> tn) ->
  Row.tracking_number r = tn ->
  find (fun r => Row.tracking_number r =? tn)%string (rows ++ [r]) = Some r.
Proof.
  intros Hfresh Htn. induction rows as [|r0 rows IH]; cbn.
  - now rewrite Htn, String.eqb_refl.
  - destruct (String.eqb_spec (Row.tracking_number r0) tn) as [H|H].
    + elim (Hfresh r0); [now left|exact H].
    + apply IH. intros r' Hr'. apply Hfresh. now right.
Qed.

Lemma update_row_in e db tn st r :
  In r (deliveries (with_status e db tn st)) ->
  exists r0, In r0 (deliveries db) /\ Row.id r0 = Row.id r /\
             Row.tracking_number r0 = Row.tracking_number r.
Proof.
  unfold with_status; cbn. intros H. apply in_map_iff in H as (r0 & <- & H0).
  exists r0. now rewrite update_row_id, update_row_tracking_number.
Qed.

(** After any run, a stored Shipment has one event for each call about it
    that returned, and a tracking number that is not stored has had none. *)
Lemma events_count_successful_calls run :
  (forall tn, stored tn (store_after run) = false -> successful_calls tn run = 0%nat) /\
  (forall r, In r (deliveries (store_after run)) ->
     List.length (events_of (Row.id r) (store_after run)) =
     successful_calls (Row.tracking_number r) run).
Proof.
  induction run as [|[e c] earlier [IH1 IH2]]; [split; [reflexivity|intros r []]|].
  pose proof (consistent_store_after earlier) as Hc.
  pose proof (consistent_store_after ((e, c) :: earlier)) as Hc'.
  cbn [store_after successful_calls] in *.
  set (db := store_after earlier) in *.
  destruct c as [s r' dst w co ed n|tn0 st loc msg].
  - (* create *)
    rewrite perform_create in *. unfold succeeded, concerns. rewrite create_cases.
    destruct (storage_ok e 0);
      [|destruct (stored (default_tracking_number e) db); no_success].
    destruct (stored (default_tracking_number e) db) eqn:Hfresh;
      [no_success|].
    cbn zeta in *.
    set (new := inserted_row e db s r' dst w co ed n) in *.
    assert (forall r, In r (deliveries db) ->
              Row.tracking_number r <> default_tracking_number e) as Hold
      by now apply stored_false_iff.
    assert (events_of (Row.id new) db = []) as Hnone
      by (apply events_of_fresh; [exact Hc|cbn; lia]).
    destruct (storage_ok e 1); cbn [fst].
    + split.
      * intros tn Hst. change (stored tn (with_row db new) = false) in Hst.
        rewrite stored_with_row in Hst. apply orb_false_iff in Hst as [Hst Hne].
        change (Row.tracking_number new) with (default_tracking_number e) in Hne.
        rewrite Hne. cbn [andb Nat.add]. now apply IH1.
      * intros r Hr. rewrite events_of_with_event.
        change (In r (deliveries db ++ [new])) in Hr.
        change (events_of (Row.id r) (with_row db new)) with (events_of (Row.id r) db).
        apply in_app_or in Hr as [Hr|[<-|[]]].
        -- pose proof (ids_in_range db Hc r Hr) as Hid.
           destruct (Z.eqb_spec (seq_deliveries db + 1) (Row.id r)) as [H|_]; [lia|].
           rewrite app_nil_r.
           destruct (String.eqb_spec (default_tracking_number e) (Row.tracking_number r))
             as [H|_]; [now elim (Hold r Hr)|].
           cbn [andb Nat.add]. now apply IH2.
        -- rewrite Hnone.
           change (Row.tracking_number new) with (default_tracking_number e).
           change (Row.id new) with (seq_deliveries db + 1).
           rewrite Z.eqb_refl, String.eqb_refl. cbn [andb].
           now rewrite (IH1 _ Hfresh).
    + split; [intros tn Hst|intros r Hr]; rewrite andb_false_r; cbn [Nat.add].
      * rewrite stored_with_row in Hst.
        apply orb_false_iff in Hst as [Hst _]. now apply IH1.
      * change (In r (deliveries db ++ [new])) in Hr.
        change (events_of (Row.id r) (with_row db new)) with (events_of (Row.id r) db).
        apply in_app_or in Hr as [Hr|[<-|[]]]; [now apply IH2|].
        rewrite Hnone.
        change (Row.tracking_number new) with (default_tracking_number e).
        now rewrite (IH1 _ Hfresh).
  - (* update_status *)
    rewrite perform_update_status in *. unfold succeeded, concerns.
    rewrite update_status_cases.
    destruct (storage_ok e 0); [|no_success].
    cbn zeta in *.
    set (db1 := with_status e db tn0 st) in *.
    assert (forall tn, stored tn db1 = false -> successful_calls tn earlier = 0%nat) as IH1'
      by (intros tn Hst; apply IH1; unfold db1 in Hst; now rewrite stored_with_status in Hst).
    assert (forall r, In r (deliveries db1) ->
              List.length (events_of (Row.id r) db1) =
              successful_calls (Row.tracking_number r) earlier) as IH2'.
    { intros r Hr. apply update_row_in in Hr as (r0 & H0 & <- & <-).
      change (events_of (Row.id r0) db1) with (events_of (Row.id r0) db).
      now apply IH2. }
    destruct (find _ (deliveries db1)) as [row|] eqn:Hf;
      [|no_success].
    destruct (_row_to_delivery row) as [d|x]; [|no_success].
    destruct (storage_ok e 1); [|no_success].
    cbn [fst].
    apply find_some in Hf as [Hrow Htn]. apply String.eqb_eq in Htn.
    split; [intros tn Hst|intros r Hr]; rewrite andb_true_r.
    + change (stored tn db1 = false) in Hst.
      destruct (String.eqb_spec tn0 tn) as [<-|_]; [|now apply IH1'].
      pose proof (proj1 (stored_false_iff tn0 db1) Hst) as Habs.
      now elim (Habs row Hrow).
    + change (In r (deliveries db1)) in Hr.
      rewrite events_of_with_event.
      rewrite length_app, (IH2' r Hr), Nat.add_comm. f_equal.
      destruct (consistent_with_status e db tn0 st Hc) as [_ _ Hids Htns _].
      fold db1 in Hids, Htns.
      destruct (Z.eqb_spec (Row.id row) (Row.id r)) as [Hid|Hid];
        destruct (String.eqb_spec tn0 (Row.tracking_number r)) as [Ht|Ht];
        try reflexivity; exfalso.
      * apply Ht. rewrite <- Htn. f_equal.
        now apply (NoDup_map_injective Row.id (deliveries db1)).
      * apply Hid. f_equal.
        apply (NoDup_map_injective Row.tracking_number (deliveries db1));
          [assumption..|congruence].
Qed.

(** ** The audit trail *)

Lemma last_event_status_app_one evs ev :
  last_event_status (evs ++ [ev]) = Some (Event.status ev).
Proof. unfold last_event_status. now rewrite rev_unit. Qed.

Lemma last_status_with_event e db did st loc msg i :
  last_status i (with_event e db did st loc msg) =
  if did =? i then Some st else last_status i db.
Proof.
  unfold last_status. rewrite events_of_with_event.
  destruct (did =? i); [apply last_event_status_app_one|now rewrite app_nil_r].
Qed.

(** When no append to the event log fails and every [update_status] is
    given a declared status, the status of a stored Shipment is the status
    of the event appended last for it. *)
Lemma status_is_last_event run :
  (forall e c, In (e, c) run -> storage_ok e 1 = true) ->
  (forall e tn st loc msg,
     In (e, UpdateStatus tn st loc msg) run -> exists s, st = value s) ->
  forall r, In r (deliveries (store_after run)) ->
    last_status (Row.id r) (store_after run) = Some (Row.status r).
Proof.
  induction run as [|[e c] earlier IH]; intros Hlog Hdecl r Hr; [destruct Hr|].
  assert (storage_ok e 1 = true) as Hl by (apply (Hlog e c); now left).
  assert (forall r0, In r0 (deliveries (store_after earlier)) ->
            last_status (Row.id r0) (store_after earlier) = Some (Row.status r0)) as IH'.
  { apply IH.
    - intros e' c' H. apply (Hlog e' c'). now right.
    - intros e' tn st loc msg H. apply (Hdecl e' tn st loc msg). now right. }
  pose proof (consistent_store_after earlier) as Hc.
  cbn [store_after] in *. set (db := store_after earlier) in *.
  destruct c as [s r' dst w co ed n|tn st loc msg].
  - rewrite perform_create in *.
    destruct (stored (default_tracking_number e) db); [now apply IH'|].
    destruct (storage_ok e 0); [|now apply IH'].
    cbn zeta in *. rewrite Hl in *.
    set (new := inserted_row e db s r' dst w co ed n) in *.
    change (In r (deliveries db ++ [new])) in Hr.
    rewrite last_status_with_event.
    apply in_app_or in Hr as [Hr|[<-|[]]].
    + pose proof (ids_in_range db Hc r Hr) as Hid.
      destruct (Z.eqb_spec (seq_deliveries db + 1) (Row.id r)) as [H|_]; [lia|].
      change (last_status (Row.id r) (with_row db new)) with (last_status (Row.id r) db).
      now apply IH'.
    + change (Row.id new) with (seq_deliveries db + 1). now rewrite Z.eqb_refl.
  - destruct (Hdecl e tn st loc msg (or_introl eq_refl)) as [s Hs].
    rewrite perform_update_status in *.
    destruct (storage_ok e 0); [|now apply IH'].
    cbn zeta in *. set (db1 := with_status e db tn st) in *.
    pose proof (consistent_with_status e db tn st Hc) as Hc1. fold db1 in Hc1.
    assert (forall r1, In r1 (deliveries db1) -> Row.tracking_number r1 <> tn ->
              last_status (Row.id r1) db1 = Some (Row.status r1)) as IH1.
    { intros r1 H1 Hne. unfold db1, with_status in H1; cbn [deliveries] in H1.
      apply in_map_iff in H1 as (r0 & <- & H0).
      rewrite update_row_tracking_number in Hne.
      rewrite update_row_other by exact Hne.
      change (last_status (Row.id r0) db1) with (last_status (Row.id r0) db).
      now apply IH'. }
    destruct (find _ (deliveries db1)) as [row|] eqn:Hf.
    + pose proof (find_some _ _ Hf) as [Hrow Htn]. apply String.eqb_eq in Htn.
      assert (Row.status row = st) as Hst.
      { pose proof Hrow as H. unfold db1, with_status in H; cbn [deliveries] in H.
        apply in_map_iff in H as (r0 & <- & _).
        rewrite update_row_tracking_number in Htn. now apply update_row_same. }
      destruct (_row_to_delivery row) as [d|x] eqn:Hd.
      * rewrite Hl in *. change (In r (deliveries db1)) in Hr.
        rewrite last_status_with_event.
        destruct (Z.eqb_spec (Row.id row) (Row.id r)) as [Hid|Hid].
        -- assert (row = r) as <-
             by (apply (NoDup_map_injective Row.id (deliveries db1));
                 [apply (ids_distinct db1 Hc1)|assumption..]).
           now rewrite Hst.
        -- apply IH1; [exact Hr|]. intros Ht. apply Hid. f_equal.
           apply (NoDup_map_injective Row.tracking_number (deliveries db1));
             [apply (tracking_numbers_distinct db1 Hc1)|assumption|assumption|congruence].
      * exfalso. destruct (_row_to_delivery_declared row s) as (d & Hd' & _); congruence.
    + apply IH1; [exact Hr|]. apply stored_find in Hf.
      now apply (proj1 (stored_false_iff tn db1) Hf).
Qed.

(** C5, as the code has it: right after a [create] that returned,
    [history] of the new Shipment is one event, the creation event with
    message ["Shipment created"]; after every [update_status] that returned
    a Shipment, [history] of it is one event longer than the events it had
    (and than [history] before the call, where that could be read); in the
    store after any run, the events of a stored Shipment are as many as the
    calls about it that returned; and in a run in which no append to the
    event log fails and every [update_status] is given a declared status,
    the status of every stored Shipment is the status of its latest event.
    A call that raises after its row write is committed leaves no event. *)
Theorem history_is_audit_trail :
  (forall run e s r dst w c ed n d db',
     create e s r dst w c ed n (store_after run) = (Ok d, db') ->
     exists ev,
       history (Delivery.tracking_number d) db' = (Ok [ev], db') /\
       Event.message ev = "Shipment created" /\
       Event.status ev = value PENDING /\
       Delivery.id d = Some (Event.delivery_id ev)) /\
  (forall e tn st loc msg db d db',
     update_status e tn st loc msg db = (Ok (Some d), db') ->
     exists i h',
       Delivery.id d = Some i /\
       history tn db' = (Ok h', db') /\
       List.length h' = S (List.length (events_of i db)) /\
       forall h, history tn db = (Ok h, db) -> List.length h' = S (List.length h)) /\
  (forall run r,
     In r (deliveries (store_after run)) ->
     List.length (events_of (Row.id r) (store_after run)) =
     successful_calls (Row.tracking_number r) run) /\
  (forall run,
     (forall e c, In (e, c) run -> storage_ok e 1 = true) ->
     (forall e tn st loc msg,
        In (e, UpdateStatus tn st loc msg) run -> exists s, st = value s) ->
     forall r, In r (deliveries (store_after run)) ->
       last_status (Row.id r) (store_after run) = Some (Row.status r)).
Proof.
  split; [|split; [|split]].
  - intros run e s r dst w c ed n d db' H.
    pose proof (consistent_store_after run) as Hc.
    set (db := store_after run) in *.
    apply create_returns in H as (Hfresh & _ & _ & -> & ->).
    set (new := inserted_row e db s r dst w c ed n).
    eexists. rewrite history_cases.
    change (deliveries (with_event e (with_row db new) (seq_deliveries db + 1)
                          "pending" "" "Shipment created"))
      with (deliveries db ++ [new])%list.
    change (Delivery.tracking_number (returned_delivery e db s r dst w c ed n))
      with (default_tracking_number e).
    rewrite find_app_fresh; [|now apply stored_false_iff|reflexivity].
    destruct (_row_to_delivery_declared new PENDING eq_refl) as (d & -> & _).
    rewrite events_of_with_event.
    change (events_of (Row.id new) (with_row db new)) with (events_of (Row.id new) db).
    rewrite events_of_fresh by (exact Hc || (cbn; lia)).
    change (Row.id new) with (seq_deliveries db + 1). rewrite Z.eqb_refl.
    cbn [app order_by insert_by]. now repeat split.
  - intros e tn st loc msg db d db' H.
    apply update_status_returns in H as (r0 & Hf & Htn & Hd & -> & _).
    exists (Row.id r0). eexists.
    split; [apply _row_to_delivery_fields in Hd as (_ & _ & _ & -> & _);
            now rewrite update_row_id|].
    rewrite !history_cases. unfold with_event at 1, with_status at 1. cbn [deliveries].
    rewrite find_update_row, Hf. cbn [option_map]. rewrite Hd, update_row_id.
    split; [reflexivity|].
    rewrite order_by_length, events_of_with_event, Z.eqb_refl, length_app.
    change (events_of (Row.id r0) (with_status e db tn st))
      with (events_of (Row.id r0) db).
    split; [cbn; lia|].
    intros h Hh. destruct (_row_to_delivery r0); [|discriminate].
    injection Hh as <-. rewrite order_by_length. cbn; lia.
  - intros run. apply events_count_successful_calls.
  - exact status_is_last_event.
Qed.

Lemma history_is_audit_trail_witness :
  (exists ev,
     create calm "Alice" "Bob" "123 Main St" 2.5%float "" None "" (store_after [])
       = (Ok (returned_delivery calm init_db "Alice" "Bob" "123 Main St" 2.5%float
                "" None ""),
          one_parcel) /\
     history "BRAAAAAAAAAA" one_parcel = (Ok [ev], one_parcel) /\
     Event.message ev = "Shipment created") /\
  (exists d db' h',
     update_status later "BRAAAAAAAAAA" "picked_up" "Depot A" "" one_parcel
       = (Ok (Some d), db') /\
     history "BRAAAAAAAAAA" db' = (Ok h', db') /\
     List.length h' = 2%nat) /\
  (exists r,
     In r (deliveries (store_after picked_up_then_delivered)) /\
     List.length (events_of (Row.id r) (store_after picked_up_then_delivered)) = 3%nat /\
     Row.status r = "delivered" /\
     last_status (Row.id r) (store_after picked_up_then_delivered) = Some (Row.status r)).
Proof.
  pose proof history_is_audit_trail as (Hcreate & Hupdate & Hcount & Hlast).
  split; [|split].
  - destruct (Hcreate [] calm "Alice" "Bob" "123 Main St" 2.5%float "" None ""
                (returned_delivery calm init_db "Alice" "Bob" "123 Main St" 2.5%float
                   "" None "")
                one_parcel eq_refl) as (ev & Hh & Hm & _).
    exists ev. split; [reflexivity|]. split; [exact Hh|exact Hm].
  - destruct (update_status later "BRAAAAAAAAAA" "picked_up" "Depot A" "" one_parcel)
      as [[[d|]|] db'] eqn:E; try (vm_compute in E; discriminate).
    destruct (Hupdate later "BRAAAAAAAAAA" "picked_up" "Depot A" "" one_parcel d db' E)
      as (i & h' & _ & Hh & _ & Hlen).
    exists d, db', h'. split; [reflexivity|]. split; [exact Hh|].
    apply (Hlen [Event.make 1 1 "pending" "" "Shipment created"
                   "2024-05-01T10:00:00.000150"]).
    reflexivity.
  - assert (forall e c, In (e, c) picked_up_then_delivered -> storage_ok e 1 = true)
      as Hlog
      by (intros e c [H|[H|[H|[]]]]; injection H as <- _; reflexivity).
    assert (forall e tn st loc msg,
              In (e, UpdateStatus tn st loc msg) picked_up_then_delivered ->
              exists s, st = value s) as Hdecl.
    { intros e tn st loc msg [H|[H|[H|[]]]]; [| |discriminate];
        injection H as _ _ <- _ _; [now exists DELIVERED|now exists PICKED_UP]. }
    eexists. split; [left; reflexivity|].
    split; [apply (Hcount picked_up_then_delivered _ (or_introl eq_refl))|].
    split; [reflexivity|].
    apply (Hlast picked_up_then_delivered Hlog Hdecl _ (or_introl eq_refl)).
Defined.

(** C5 as stated fails.  A [create] whose event append fails leaves a
    stored Shipment whose [history] is empty; and an [update_status] whose
    event append fails leaves the new status stored while [history] is what
    it was, the creation event alone. *)
Lemma history_misses_committed_changes :
  (exists db',
     create log_fails "Alice" "Bob" "123 Main St" 2.5%float "" None "" init_db
       = (Raise OperationalError, db') /\
     stored "BRAAAAAAAAAA" db' = true /\
     history "BRAAAAAAAAAA" db' = (Ok [], db')) /\
  (exists d h,
     update_status log_fails "BRAAAAAAAAAA" "picked_up" "Depot A" "" one_parcel
       = (Raise OperationalError, picked_up_unlogged) /\
     get "BRAAAAAAAAAA" one_parcel
       = (Ok (Some (returned_delivery calm init_db "Alice" "Bob" "123 Main St"
                      2.5%float "" None "")), one_parcel) /\
     get "BRAAAAAAAAAA" picked_up_unlogged = (Ok (Some d), picked_up_unlogged) /\
     Delivery.status d = PICKED_UP /\
     history "BRAAAAAAAAAA" one_parcel = (Ok h, one_parcel) /\
     history "BRAAAAAAAAAA" picked_up_unlogged = (Ok h, picked_up_unlogged) /\
     List.length h = 1%nat).
Proof.
  split.
  - eexists. split; [vm_compute; reflexivity|]. now split.
  - eexists; eexists. split; [reflexivity|]. split; [reflexivity|].
    split; [vm_compute; reflexivity|]. split; [reflexivity|].
    split; [vm_compute; reflexivity|]. now split.
Qed.

(** ** Shipments and their creation events *)

Lemma perform_keeps_events e c db ev :
  In ev (tracking_events db) -> In ev (tracking_events (perform e c db)).
Proof.
  intros H. destruct c as [s r dst w co ed n|tn st loc msg].
  - rewrite perform_create.
    destruct (stored _ db); [exact H|].
    destruct (storage_ok e 0); [|exact H].
    cbn zeta. destruct (storage_ok e 1); [|exact H].
    cbn. apply in_or_app. now left.
  - rewrite perform_update_status.
    destruct (storage_ok e 0); [|exact H].
    cbn zeta. destruct (find _ _) as [row|]; [|exact H].
    destruct (_row_to_delivery row); [|exact H].
    destruct (storage_ok e 1); [|exact H].
    cbn. apply in_or_app. now left.
Qed.

(** When no append to [tracking_events] fails during a run, every stored
    Shipment has its creation event. *)
Lemma creation_event_present run :
  (forall e c, In (e, c) run -> storage_ok e 1 = true) ->
  forall r, In r (deliveries (store_after run)) ->
    exists ev, In ev (tracking_events (store_after run)) /\
               Event.delivery_id ev = Row.id r /\
               Event.message ev = "Shipment created" /\
               Event.status ev = "pending".
Proof.
  induction run as [|[e c] earlier IH]; intros Hok r Hr; [destruct Hr|].
  assert (storage_ok e 1 = true) as Hl by (apply (Hok e c); now left).
  assert (forall r0, In r0 (deliveries (store_after earlier)) ->
            exists ev, In ev (tracking_events (store_after ((e, c) :: earlier))) /\
                       Event.delivery_id ev = Row.id r0 /\
                       Event.message ev = "Shipment created" /\
                       Event.status ev = "pending") as Hold.
  { intros r0 H0. destruct (IH (fun e' c' H => Hok e' c' (or_intror H)) r0 H0)
      as (ev & Hev & Hrest).
    exists ev. split; [now apply perform_keeps_events|exact Hrest]. }
  cbn [store_after] in *. set (db := store_after earlier) in *.
  destruct c as [s r' dst w co ed n|tn st loc msg].
  - rewrite perform_create in *.
    destruct (stored _ db); [now apply Hold|].
    destruct (storage_ok e 0); [|now apply Hold].
    cbn zeta in *. rewrite Hl in *.
    change (In r (deliveries db ++ [inserted_row e db s r' dst w co ed n])) in Hr.
    apply in_app_or in Hr as [Hr|[<-|[]]]; [now apply Hold|].
    eexists. split; [cbn; apply in_or_app; right; left; reflexivity|].
    now repeat split.
  - destruct (perform_deliveries e (UpdateStatus tn st loc msg) db)
      as [Heq|[(s & r' & dst & w & co & ed & n & Hc & _)
              |(tn' & st' & loc' & msg' & _ & Heq)]];
      [rewrite Heq in Hr; now apply Hold|discriminate|].
    rewrite Heq in Hr. apply in_map_iff in Hr as (r0 & <- & H0).
    rewrite update_row_id. now apply Hold.
Qed.

(** C3, as the code has it: [create] commits the Shipment row and its
    creation event in two separate transactions.  Every event in the store
    after any run belongs to a stored Shipment; a [create] that returns has
    stored both the Shipment and its creation event; when no append to the
    event log fails during a run, every stored Shipment has its creation
    event; but when the append of the creation event fails, [create] raises
    and the row it has already committed stays in the store. *)
Theorem create_commits_row_then_event :
  (forall run ev,
     In ev (tracking_events (store_after run)) ->
     exists r, In r (deliveries (store_after run)) /\ Row.id r = Event.delivery_id ev) /\
  (forall e s r dst w c ed n db d db',
     create e s r dst w c ed n db = (Ok d, db') ->
     exists row ev,
       In row (deliveries db') /\ In ev (tracking_events db') /\
       Row.tracking_number row = Delivery.tracking_number d /\
       Delivery.id d = Some (Row.id row) /\
       Event.delivery_id ev = Row.id row /\
       Event.message ev = "Shipment created") /\
  (forall run,
     (forall e c, In (e, c) run -> storage_ok e 1 = true) ->
     forall r, In r (deliveries (store_after run)) ->
       exists ev, In ev (tracking_events (store_after run)) /\
                  Event.delivery_id ev = Row.id r /\
                  Event.message ev = "Shipment created" /\
                  Event.status ev = "pending") /\
  (forall e s r dst w c ed n db,
     stored (default_tracking_number e) db = false ->
     storage_ok e 0 = true -> storage_ok e 1 = false ->
     create e s r dst w c ed n db =
       (Raise OperationalError, with_row db (inserted_row e db s r dst w c ed n))).
Proof.
  split; [|split; [|split]].
  - intros run ev. apply events_have_parent, consistent_store_after.
  - intros e s r dst w c ed n db d db' H.
    apply create_returns in H as (_ & _ & _ & -> & ->).
    eexists; eexists.
    split; [cbn; apply in_or_app; right; left; reflexivity|].
    split; [cbn; apply in_or_app; right; left; reflexivity|].
    now repeat split.
  - exact creation_event_present.
  - intros e s r dst w c ed n db Hfresh Hw Hl.
    now rewrite create_cases, Hfresh, Hw, Hl.
Qed.

Lemma create_commits_row_then_event_witness :
  (exists ev r,
     In ev (tracking_events (store_after picked_up_then_delivered)) /\
     Event.status ev = "delivered" /\
     In r (deliveries (store_after picked_up_then_delivered)) /\
     Row.id r = Event.delivery_id ev) /\
  (exists r ev,
     In r (deliveries two_parcels) /\ Row.sender r = "Carol" /\
     In ev (tracking_events two_parcels) /\
     Event.delivery_id ev = Row.id r /\ Event.message ev = "Shipment created") /\
  (exists row ev,
     In row (deliveries two_parcels) /\ In ev (tracking_events two_parcels) /\
     Row.tracking_number row = "BRBBBBBBBBBB" /\
     Event.delivery_id ev = Row.id row /\
     Event.message ev = "Shipment created") /\
  create log_fails "Alice" "Bob" "123 Main St" 2.5%float "" None "" init_db =
    (Raise OperationalError,
     with_row init_db
       (inserted_row log_fails init_db "Alice" "Bob" "123 Main St" 2.5%float "" None "")).
Proof.
  pose proof create_commits_row_then_event as (Hparent & Hboth & Hcreated & Hfail).
  split; [|split; [|split]].
  - eexists.
    destruct (Hparent picked_up_then_delivered _
                (or_intror (or_intror (or_introl eq_refl)))) as (r & Hr & Hid).
    exists r. split; [right; right; left; reflexivity|].
    split; [reflexivity|]. split; [exact Hr|exact Hid].
  - assert (forall e c,
              In (e, c) [(later, Create "Carol" "Dan" "9 Elm Rd" 1%float "" None "");
                         (calm, Create "Alice" "Bob" "123 Main St" 2.5%float "" None "")] ->
              storage_ok e 1 = true) as Hok.
    { intros e c [H|[H|[]]]; injection H as <- _; reflexivity. }
    eexists.
    destruct (Hcreated _ Hok _ (or_intror (or_introl eq_refl)))
      as (ev & Hev & Hid & Hmsg & _).
    exists ev. split; [right; left; reflexivity|]. split; [reflexivity|].
    split; [exact Hev|]. split; [exact Hid|exact Hmsg].
  - destruct (Hboth later "Carol" "Dan" "9 Elm Rd" 1%float "" None "" one_parcel
                (returned_delivery later one_parcel "Carol" "Dan" "9 Elm Rd" 1%float
                   "" None "")
                two_parcels eq_refl) as (row & ev & Hrow & Hev & Htn & _ & Hid & Hmsg).
    exists row, ev. repeat split; assumption.
  - apply Hfail; reflexivity.
Defined.

(** C3 as stated fails: when the append of the creation event fails,
    [create] raises, and the store keeps the Shipment without any event. *)
Lemma create_not_atomic :
  exists db',
    create log_fails "Alice" "Bob" "123 Main St" 2.5%float "" None "" init_db
      = (Raise OperationalError, db') /\
    stored "BRAAAAAAAAAA" db' = true /\
    List.length (deliveries db') = 1%nat /\
    tracking_events db' = [].
Proof.
  eexists. split; [vm_compute; reflexivity|]. now repeat split.
Qed.

(** * Further properties of the operations *)

(** ** Lookup *)

Lemma _row_to_delivery_raise_undeclared r x :
  _row_to_delivery r = Raise x -> undeclared r.
Proof.
  intros H s Hs. destruct (_row_to_delivery_declared r s (eq_sym Hs)) as (d & Hd & _).
  congruence.
Qed.

Lemma stored_true_find tn db :
  stored tn db = true <->
  exists r, find (fun r => Row.tracking_number r =? tn)%string (deliveries db) = Some r.
Proof.
  split.
  - intros H. destruct (find_stored tn db H) as (r & Hr & _). now exists r.
  - intros [r Hr]. destruct (stored tn db) eqn:E; [reflexivity|].
    apply stored_find in E. congruence.
Qed.

(** X1: [get] never changes the store; it returns [None] exactly when no
    stored row carries the tracking number; a Shipment it returns carries the
    tracking number asked for and is the decoding of a stored row; and the
    only exception it raises is [ValueError], for a stored row whose status is
    no declared value. *)
Theorem get_lookup tn db :
  snd (get tn db) = db /\
  (fst (get tn db) = Ok None <-> stored tn db = false) /\
  (forall d, fst (get tn db) = Ok (Some d) ->
     Delivery.tracking_number d = tn /\
     exists r, In r (deliveries db) /\ decodes_to r d) /\
  (forall x, fst (get tn db) = Raise x ->
     x = ValueError /\
     exists r, In r (deliveries db) /\ Row.tracking_number r = tn /\ undeclared r).
Proof.
  unfold get. destruct (find _ (deliveries db)) as [r|] eqn:Hf.
  - pose proof (find_some _ _ Hf) as [Hin Htn]. apply String.eqb_eq in Htn.
    assert (stored tn db = true) as Hst by (apply stored_true_find; now exists r).
    destruct (_row_to_delivery r) as [d|x] eqn:Hd; cbn [fst snd].
    + split; [reflexivity|]. split; [split; [discriminate|congruence]|].
      split; [|discriminate].
      intros d' H. injection H as <-.
      split; [|now exists r].
      apply _row_to_delivery_fields in Hd as (_ & -> & _). exact Htn.
    + split; [reflexivity|]. split; [split; [discriminate|congruence]|].
      split; [discriminate|].
      intros x' H. injection H as <-.
      split; [now apply _row_to_delivery_raises in Hd|].
      exists r. split; [exact Hin|]. split; [exact Htn|].
      now apply _row_to_delivery_raise_undeclared in Hd.
  - apply stored_find in Hf. cbn [fst snd].
    split; [reflexivity|]. split; [now split|]. split; discriminate.
Qed.

Lemma get_lookup_witness :
  exists d,
    fst (get "BRAAAAAAAAAA" one_parcel) = Ok (Some d) /\
    Delivery.tracking_number d = "BRAAAAAAAAAA" /\
    (exists r, In r (deliveries one_parcel) /\ decodes_to r d) /\
    fst (get "BRAAAAAAAAAA" lost_parcel) = Raise ValueError /\
    exists r, In r (deliveries lost_parcel) /\
              Row.tracking_number r = "BRAAAAAAAAAA" /\ undeclared r.
Proof.
  eexists. split; [reflexivity|].
  destruct (get_lookup "BRAAAAAAAAAA" one_parcel) as (_ & _ & Hsome & _).
  destruct (Hsome _ eq_refl) as (Htn & Hrow).
  split; [exact Htn|]. split; [exact Hrow|]. split; [reflexivity|].
  destruct (get_lookup "BRAAAAAAAAAA" lost_parcel) as (_ & _ & _ & Hraise).
  exact (proj2 (Hraise ValueError eq_refl)).
Defined.

(** ** Creation, read back *)

Lemma inserted_row_decodes e db s r dst w c ed n :
  _row_to_delivery (inserted_row e db s r dst w c ed n) =
  Ok (Delivery.make s r dst (real_column w) PENDING (default_tracking_number e) ed None
        c n (clock e 0) (clock e 0) (Some (seq_deliveries db + 1))).
Proof. reflexivity. Qed.

(** X2: a Shipment returned by [create] carries the arguments of the call,
    is Pending, has no [actual_delivery], and has [created_at] and
    [updated_at] both equal to the time of the call.  It can be read back at
    once: [get] of its tracking number returns a Shipment with the same
    fields, the weight being what the REAL column keeps of it (nothing for
    NaN, [0.0] for a zero of either sign); so when the weight is a value the
    column keeps as it is, [get] returns that same Shipment. *)
Theorem create_then_get e s r dst w c ed n db d db' :
  create e s r dst w c ed n db = (Ok d, db') ->
  d = Delivery.make s r dst (Some w) PENDING (default_tracking_number e) ed None
        c n (clock e 0) (clock e 0) (Some (seq_deliveries db + 1)) /\
  get (Delivery.tracking_number d) db' =
    (Ok (Some (Delivery.make s r dst (real_column w) PENDING (default_tracking_number e)
                 ed None c n (clock e 0) (clock e 0) (Some (seq_deliveries db + 1)))),
     db') /\
  (real_column w = Some w -> get (Delivery.tracking_number d) db' = (Ok (Some d), db')).
Proof.
  intros H. apply create_returns in H as (Hfresh & _ & _ & -> & ->).
  split; [reflexivity|].
  assert (get (Delivery.tracking_number (returned_delivery e db s r dst w c ed n))
            (with_event e (with_row db (inserted_row e db s r dst w c ed n))
               (seq_deliveries db + 1) "pending" "" "Shipment created") =
          (Ok (Some (Delivery.make s r dst (real_column w) PENDING
                       (default_tracking_number e) ed None c n (clock e 0) (clock e 0)
                       (Some (seq_deliveries db + 1)))),
           with_event e (with_row db (inserted_row e db s r dst w c ed n))
             (seq_deliveries db + 1) "pending" "" "Shipment created")) as Hget.
  { unfold get.
    change (deliveries (with_event e (with_row db (inserted_row e db s r dst w c ed n))
                          (seq_deliveries db + 1) "pending" "" "Shipment created"))
      with (deliveries db ++ [inserted_row e db s r dst w c ed n])%list.
    change (Delivery.tracking_number (returned_delivery e db s r dst w c ed n))
      with (default_tracking_number e).
    rewrite find_app_fresh; [|now apply stored_false_iff|reflexivity].
    now rewrite inserted_row_decodes. }
  split; [exact Hget|].
  intros Hw. rewrite Hget, Hw. reflexivity.
Qed.

Lemma create_then_get_witness :
  real_column 1%float = Some 1%float /\
  exists d db',
    create later "Carol" "Dan" "9 Elm Rd" 1%float "DHL" (Some "2024-05-09") "fragile"
      one_parcel = (Ok d, db') /\
    get (Delivery.tracking_number d) db' = (Ok (Some d), db') /\
    Delivery.status d = PENDING /\ Delivery.id d = Some 2.
Proof.
  split; [reflexivity|].
  eexists; eexists. split; [vm_compute; reflexivity|].
  destruct (create_then_get later "Carol" "Dan" "9 Elm Rd" 1%float "DHL"
              (Some "2024-05-09") "fragile" one_parcel _ _ eq_refl)
    as (Hd & _ & Hget).
  split; [exact (Hget eq_refl)|]. split; reflexivity.
Defined.

(** ** What [update_status] returns and writes *)

(** Decoding a row and flattening the Shipment again gives back every
    column of the row. *)
Lemma _row_to_delivery_columns r d :
  _row_to_delivery r = Ok d -> asdict_with_status_value d = columns r.
Proof.
  unfold _row_to_delivery.
  destruct (DeliveryStatus_of_value (Row.status r)) as [s|] eqn:E; [|discriminate].
  intros H; injection H as <-. apply DeliveryStatus_of_value_ok in E.
  unfold asdict_with_status_value, columns. cbn. now rewrite E.
Qed.

(** X3: [update_status] returns a Shipment exactly when the tracking number
    is stored, the new status is one of the declared values, and both of
    its writes go through. *)
Theorem update_status_returns_iff e tn st loc msg db :
  (exists d db', update_status e tn st loc msg db = (Ok (Some d), db')) <->
  stored tn db = true /\ (exists s, st = value s) /\
  storage_ok e 0 = true /\ storage_ok e 1 = true.
Proof.
  split.
  - intros (d & db' & H).
    apply update_status_returns in H as (r0 & Hf & Htn & Hd & _ & Hw & Hl).
    split; [apply stored_true_find; now exists r0|].
    split; [|now split].
    exists (Delivery.status d).
    apply _row_to_delivery_fields in Hd as (_ & _ & _ & _ & ->).
    symmetry. now apply update_row_same.
  - intros (Hst & (s & Hs) & Hw & Hl).
    destruct (update_status_succeeds e tn st loc msg db s Hst Hs Hw Hl)
      as (d & db' & H & _).
    now exists d, db'.
Qed.

Lemma update_status_returns_iff_witness :
  (exists d db',
     update_status later "BRAAAAAAAAAA" "returned" "" "" lost_parcel = (Ok (Some d), db')) /\
  stored "BRAAAAAAAAAA" lost_parcel = true /\ (exists s, "returned" = value s).
Proof.
  assert (stored "BRAAAAAAAAAA" lost_parcel = true /\ (exists s, "returned" = value s) /\
          storage_ok later 0 = true /\ storage_ok later 1 = true) as H
    by (repeat split; now exists RETURNED).
  split; [|split; apply H].
  exact (proj2 (update_status_returns_iff later "BRAAAAAAAAAA" "returned" "" ""
                  lost_parcel) H).
Defined.

(** X4: the Shipment that [update_status] returns has the new status, the
    time of the call as [updated_at], and [actual_delivery] set to that time
    when the new status is ["delivered"] and kept otherwise; its tracking
    number, id, sender, recipient, destination, weight, estimate, courier,
    notes and [created_at] are those of the stored row. *)
Theorem update_status_returned_shipment e tn st loc msg db d db' :
  update_status e tn st loc msg db = (Ok (Some d), db') ->
  exists r0,
    In r0 (deliveries db) /\ Row.tracking_number r0 = tn /\
    value (Delivery.status d) = st /\
    Delivery.updated_at d = clock e 0 /\
    Delivery.actual_delivery d =
      (if (st =? "delivered")%string then Some (clock e 0) else Row.actual_delivery r0) /\
    Delivery.tracking_number d = tn /\
    Delivery.id d = Some (Row.id r0) /\
    Delivery.sender d = Row.sender r0 /\
    Delivery.recipient d = Row.recipient r0 /\
    Delivery.destination d = Row.destination r0 /\
    Delivery.weight_kg d = Row.weight_kg r0 /\
    Delivery.estimated_delivery d = Row.estimated_delivery r0 /\
    Delivery.courier d = Row.courier r0 /\
    Delivery.notes d = Row.notes r0 /\
    Delivery.created_at d = Row.created_at r0.
Proof.
  intros H. apply update_status_returns in H as (r0 & Hf & Htn & Hd & _).
  exists r0. split; [now apply find_some in Hf as [? _]|]. split; [exact Htn|].
  apply _row_to_delivery_columns in Hd.
  unfold update_row in Hd. rewrite Htn, String.eqb_refl in Hd.
  unfold asdict_with_status_value, columns in Hd. cbn in Hd.
  injection Hd as -> -> -> -> -> -> -> -> -> -> -> -> ->.
  destruct (st =? "delivered")%string; now repeat split.
Qed.

Lemma update_status_returned_shipment_witness :
  exists d db',
    update_status later "BRAAAAAAAAAA" "picked_up" "Depot A" "" one_parcel
      = (Ok (Some d), db') /\
    Delivery.status d = PICKED_UP /\
    Delivery.updated_at d = "2024-05-02T09:30:00.000000" /\
    Delivery.created_at d = "2024-05-01T10:00:00.000000" /\
    Delivery.sender d = "Alice" /\ Delivery.actual_delivery d = None.
Proof.
  eexists; eexists. split; [vm_compute; reflexivity|].
  destruct (update_status_returned_shipment later "BRAAAAAAAAAA" "picked_up" "Depot A" ""
              one_parcel _ _ eq_refl) as (r0 & _).
  now repeat split.
Defined.

(** X5: an [update_status] that returns a Shipment has appended exactly one
    event, last in the table, with the next event id, the Shipment's id, the
    new status, the location and message of the call and the time of the
    append; [history] of the Shipment then contains that event. *)
Theorem update_status_logs_event e tn st loc msg db d db' :
  update_status e tn st loc msg db = (Ok (Some d), db') ->
  exists i ev h,
    Delivery.id d = Some i /\
    ev = Event.make (seq_tracking_events db + 1) i st loc msg (clock e 1) /\
    tracking_events db' = (tracking_events db ++ [ev])%list /\
    history tn db' = (Ok h, db') /\ In ev h.
Proof.
  intros H. apply update_status_returns in H as (r0 & Hf & Htn & Hd & -> & _).
  exists (Row.id r0). eexists; eexists.
  split; [apply _row_to_delivery_fields in Hd as (_ & _ & _ & -> & _);
          now rewrite update_row_id|].
  split; [reflexivity|]. split; [reflexivity|].
  rewrite history_cases. unfold with_event at 1, with_status at 1. cbn [deliveries].
  rewrite find_update_row, Hf. cbn [option_map]. rewrite Hd, update_row_id.
  split; [reflexivity|].
  eapply Permutation_in; [symmetry; apply order_by_perm|].
  rewrite events_of_with_event, Z.eqb_refl. apply in_or_app. right. now left.
Qed.

Lemma update_status_logs_event_witness :
  exists d db' ev h,
    update_status later "BRAAAAAAAAAA" "picked_up" "Depot A" "" one_parcel
      = (Ok (Some d), db') /\
    ev = Event.make 2 1 "picked_up" "Depot A" "" "2024-05-02T09:30:00.000150" /\
    tracking_events db' = (tracking_events one_parcel ++ [ev])%list /\
    history "BRAAAAAAAAAA" db' = (Ok h, db') /\ In ev h.
Proof.
  eexists; eexists.
  destruct (update_status_logs_event later "BRAAAAAAAAAA" "picked_up" "Depot A" ""
              one_parcel _ _ eq_refl) as (i & ev & h & Hi & Hev & Hevs & Hh & Hin).
  injection Hi as <-.
  exists ev, h. split; [reflexivity|]. split; [exact Hev|].
  split; [exact Hevs|]. split; [exact Hh|exact Hin].
Defined.

(** ** What a call leaves alone *)

Lemma find_with_status_other e db tn st tn' :
  tn' <> tn ->
  find (fun r => Row.tracking_number r =? tn')%string (deliveries (with_status e db tn st)) =
  find (fun r => Row.tracking_number r =? tn')%string (deliveries db).
Proof.
  intros Hne. unfold with_status; cbn [deliveries]. rewrite find_update_row.
  destruct (find _ (deliveries db)) as [r|] eqn:Hf; [|reflexivity].
  cbn [option_map]. f_equal. apply update_row_other.
  apply find_some in Hf as [_ Hf]. apply String.eqb_eq in Hf. congruence.
Qed.

Lemma find_app_found {A} (p : A -> bool) l l' x :
  find p l = Some x -> find p (l ++ l') = Some x.
Proof.
  induction l as [|y l IH]; cbn; [discriminate|].
  destruct (p y); [trivial|exact IH].
Qed.

(** An event appended for another row does not show in the history. *)
Lemma history_with_event_other e db did st loc msg tn' :
  (forall r, find (fun r => Row.tracking_number r =? tn')%string (deliveries db) = Some r ->
             Row.id r <> did) ->
  fst (history tn' (with_event e db did st loc msg)) = fst (history tn' db).
Proof.
  intros Hid. rewrite !history_cases.
  change (deliveries (with_event e db did st loc msg)) with (deliveries db).
  destruct (find _ (deliveries db)) as [r|]; [|reflexivity].
  destruct (_row_to_delivery r); [|reflexivity].
  rewrite events_of_with_event.
  destruct (Z.eqb_spec did (Row.id r)) as [H|_]; [now elim (Hid r eq_refl)|].
  now rewrite app_nil_r.
Qed.

Lemma history_with_status_other e db tn st tn' :
  tn' <> tn -> fst (history tn' (with_status e db tn st)) = fst (history tn' db).
Proof.
  intros Hne. rewrite !history_cases, find_with_status_other by exact Hne.
  destruct (find _ (deliveries db)) as [r|]; [|reflexivity].
  now destruct (_row_to_delivery r).
Qed.

Lemma get_same_rows tn db db' :
  deliveries db' = deliveries db -> fst (get tn db') = fst (get tn db).
Proof.
  intros H. unfold get. rewrite H.
  destruct (find _ (deliveries db)) as [r|]; [|reflexivity].
  now destruct (_row_to_delivery r).
Qed.

(** X6: [update_status] on one tracking number leaves every other Shipment
    alone: whatever the outcome of the call, [get] and [history] of any other
    tracking number give what they gave before, and the rows with another
    tracking number are the same rows. *)
Theorem update_status_leaves_other_shipments e tn st loc msg db tn' :
  consistent db -> tn' <> tn ->
  fst (get tn' (snd (update_status e tn st loc msg db))) = fst (get tn' db) /\
  fst (history tn' (snd (update_status e tn st loc msg db))) = fst (history tn' db) /\
  (forall r, Row.tracking_number r <> tn ->
     In r (deliveries (snd (update_status e tn st loc msg db))) <-> In r (deliveries db)).
Proof.
  intros Hc Hne.
  change (snd (update_status e tn st loc msg db))
    with (perform e (UpdateStatus tn st loc msg) db).
  set (db1 := with_status e db tn st).
  assert (fst (get tn' db1) = fst (get tn' db)) as Hget1
    by (unfold get, db1; rewrite find_with_status_other by exact Hne;
        destruct (find _ (deliveries db)) as [r|]; [now destruct (_row_to_delivery r)|reflexivity]).
  assert (forall r, Row.tracking_number r <> tn ->
                    In r (deliveries db1) <-> In r (deliveries db)) as Hrows1.
  { intros r Hr. unfold db1, with_status; cbn [deliveries]. rewrite in_map_iff. split.
    - intros (r0 & <- & H0). rewrite update_row_tracking_number in Hr.
      now rewrite update_row_other.
    - intros H0. exists r. split; [now apply update_row_other|exact H0]. }
  rewrite perform_update_status.
  destruct (storage_ok e 0); [|now repeat split].
  cbn zeta. fold db1.
  destruct (find _ (deliveries db1)) as [row|] eqn:Hf;
    [|split; [exact Hget1|]; split; [now apply history_with_status_other|exact Hrows1]].
  destruct (_row_to_delivery row);
    [|split; [exact Hget1|]; split; [now apply history_with_status_other|exact Hrows1]].
  destruct (storage_ok e 1);
    [|split; [exact Hget1|]; split; [now apply history_with_status_other|exact Hrows1]].
  split; [rewrite <- Hget1; now apply get_same_rows|].
  split; [|exact Hrows1].
  rewrite history_with_event_other; [now apply history_with_status_other|].
  intros r' Hf' Hid.
  apply find_some in Hf as [Hin Htn], Hf' as [Hin' Htn'].
  apply String.eqb_eq in Htn, Htn'.
  assert (r' = row) as ->.
  { apply (NoDup_map_injective Row.id (deliveries db1)); try assumption.
    apply (ids_distinct db1), consistent_with_status, Hc. }
  congruence.
Qed.

Lemma update_status_leaves_other_shipments_witness :
  consistent two_parcels /\ "BRAAAAAAAAAA" <> "BRBBBBBBBBBB" /\
  fst (get "BRAAAAAAAAAA"
         (snd (update_status afterwards "BRBBBBBBBBBB" "delivered" "" "" two_parcels))) =
    fst (get "BRAAAAAAAAAA" two_parcels) /\
  fst (history "BRAAAAAAAAAA"
         (snd (update_status afterwards "BRBBBBBBBBBB" "delivered" "" "" two_parcels))) =
    fst (history "BRAAAAAAAAAA" two_parcels).
Proof.
  assert (consistent two_parcels) as Hc by apply consistent_store_after.
  assert ("BRAAAAAAAAAA" <> "BRBBBBBBBBBB") as Hne by discriminate.
  split; [exact Hc|]. split; [exact Hne|].
  destruct (update_status_leaves_other_shipments afterwards "BRBBBBBBBBBB" "delivered" "" ""
              two_parcels "BRAAAAAAAAAA" Hc Hne) as (Hget & Hhist & _).
  split; [exact Hget|exact Hhist].
Defined.

(** X7: [create] leaves every stored Shipment alone: whatever the outcome of
    the call, the rows and the events that were stored are still there, in
    place, followed by at most one new row and one new event, and [get] and
    [history] of a tracking number that was stored give what they gave
    before. *)
Theorem create_leaves_stored_shipments e s r dst w c ed n db tn' :
  consistent db -> stored tn' db = true ->
  (exists rows evs,
     deliveries (snd (create e s r dst w c ed n db)) = (deliveries db ++ rows)%list /\
     tracking_events (snd (create e s r dst w c ed n db)) = (tracking_events db ++ evs)%list /\
     (List.length evs <= List.length rows <= 1)%nat) /\
  fst (get tn' (snd (create e s r dst w c ed n db))) = fst (get tn' db) /\
  fst (history tn' (snd (create e s r dst w c ed n db))) = fst (history tn' db).
Proof.
  intros Hc Hst.
  destruct (find_stored tn' db Hst) as (r' & Hf' & Htn').
  pose proof (find_some _ _ Hf') as [Hin' _].
  pose proof (ids_in_range db Hc r' Hin') as Hid'.
  change (snd (create e s r dst w c ed n db)) with (perform e (Create s r dst w c ed n) db).
  rewrite perform_create.
  assert ((exists rows evs,
             deliveries db = (deliveries db ++ rows)%list /\
             tracking_events db = (tracking_events db ++ evs)%list /\
             (List.length evs <= List.length rows <= 1)%nat) /\
          fst (get tn' db) = fst (get tn' db) /\
          fst (history tn' db) = fst (history tn' db)) as Hsame.
  { split; [|now split]. exists [], []. rewrite !app_nil_r. cbn. repeat split; lia. }
  destruct (stored (default_tracking_number e) db); [exact Hsame|].
  destruct (storage_ok e 0); [|exact Hsame].
  cbn zeta. set (new := inserted_row e db s r dst w c ed n).
  assert (fst (get tn' (with_row db new)) = fst (get tn' db)) as Hget.
  { unfold get, with_row; cbn [deliveries].
    rewrite (find_app_found _ _ _ _ Hf'), Hf'. now destruct (_row_to_delivery r'). }
  assert (fst (history tn' (with_row db new)) = fst (history tn' db)) as Hhist.
  { rewrite !history_cases. unfold with_row at 1; cbn [deliveries].
    rewrite (find_app_found _ _ _ _ Hf'), Hf'. now destruct (_row_to_delivery r'). }
  destruct (storage_ok e 1).
  - split; [eexists [new], [_]; cbn; repeat split; lia|].
    split; [rewrite <- Hget; now apply get_same_rows|].
    rewrite history_with_event_other; [exact Hhist|].
    intros r0 Hf0. unfold with_row in Hf0; cbn [deliveries] in Hf0.
    rewrite (find_app_found _ _ _ _ Hf') in Hf0. injection Hf0 as <-. lia.
  - split; [exists [new], []; cbn; rewrite app_nil_r; repeat split; lia|].
    now split.
Qed.

Lemma create_leaves_stored_shipments_witness :
  consistent one_parcel /\ stored "BRAAAAAAAAAA" one_parcel = true /\
  fst (get "BRAAAAAAAAAA"
         (snd (create later "Carol" "Dan" "9 Elm Rd" 1%float "" None "" one_parcel))) =
    fst (get "BRAAAAAAAAAA" one_parcel) /\
  fst (history "BRAAAAAAAAAA"
         (snd (create later "Carol" "Dan" "9 Elm Rd" 1%float "" None "" one_parcel))) =
    fst (history "BRAAAAAAAAAA" one_parcel).
Proof.
  assert (consistent one_parcel) as Hc by apply consistent_store_after.
  split; [exact Hc|]. split; [reflexivity|].
  destruct (create_leaves_stored_shipments later "Carol" "Dan" "9 Elm Rd" 1%float "" None ""
              one_parcel "BRAAAAAAAAAA" Hc eq_refl) as (_ & Hget & Hhist).
  split; [exact Hget|exact Hhist].
Defined.

(** ** What no run undoes *)

Lemma same_shipment_refl r : same_shipment r r.
Proof. now repeat split. Qed.

Lemma same_shipment_trans r1 r2 r3 :
  same_shipment r1 r2 -> same_shipment r2 r3 -> same_shipment r1 r3.
Proof.
  unfold same_shipment.
  intros (A1 & A2 & A3 & A4 & A5 & A6 & A7 & A8 & A9 & A10)
         (B1 & B2 & B3 & B4 & B5 & B6 & B7 & B8 & B9 & B10).
  repeat split; congruence.
Qed.

Lemma same_shipment_update_row tn st a now r :
  same_shipment r (update_row tn st a now r).
Proof.
  unfold update_row. destruct (Row.tracking_number r =? tn)%string; now repeat split.
Qed.

Lemma perform_keeps_shipment e c db r :
  In r (deliveries db) ->
  exists r', In r' (deliveries (perform e c db)) /\ same_shipment r r'.
Proof.
  intros Hin.
  destruct (perform_deliveries e c db)
    as [->|[(s & r0 & dst & w & co & ed & n & _ & _ & ->)|(tn & st & loc & msg & _ & ->)]].
  - exists r. split; [exact Hin|apply same_shipment_refl].
  - exists r. split; [apply in_or_app; now left|apply same_shipment_refl].
  - eexists. split; [apply in_map; exact Hin|apply same_shipment_update_row].
Qed.

(** X8: no run deletes a Shipment or rewrites its creation data: a row
    stored after a run is still stored after any longer run, with the same
    id, tracking number, sender, recipient, destination, weight, estimate,
    courier, notes and [created_at]. *)
Theorem shipments_keep_creation_data later_calls run r :
  In r (deliveries (store_after run)) ->
  exists r', In r' (deliveries (store_after (later_calls ++ run))) /\ same_shipment r r'.
Proof.
  intros Hin. induction later_calls as [|[e c] calls IH]; cbn [app store_after].
  - exists r. split; [exact Hin|apply same_shipment_refl].
  - destruct IH as (r1 & H1 & Hs1).
    destruct (perform_keeps_shipment e c _ r1 H1) as (r2 & H2 & Hs2).
    exists r2. split; [exact H2|]. now apply same_shipment_trans with r1.
Qed.

Lemma shipments_keep_creation_data_witness :
  exists r r',
    In r (deliveries one_parcel) /\
    In r' (deliveries (store_after delivered_then_in_transit)) /\
    Row.status r = "pending" /\ same_shipment r r'.
Proof.
  eexists.
  destruct (shipments_keep_creation_data
              [(afterwards, UpdateStatus "BRAAAAAAAAAA" "in_transit" "" "");
               (later, UpdateStatus "BRAAAAAAAAAA" "delivered" "Front door" "")]
              [(calm, Create "Alice" "Bob" "123 Main St" 2.5%float "" None "")]
              _ (or_introl eq_refl)) as (r' & Hin' & Hsame).
  exists r'. split; [left; reflexivity|]. split; [exact Hin'|].
  split; [reflexivity|exact Hsame].
Defined.

Lemma perform_appends_events e c db :
  exists evs, tracking_events (perform e c db) = (tracking_events db ++ evs)%list /\
              (List.length evs <= 1)%nat.
Proof.
  assert (exists evs, tracking_events db = (tracking_events db ++ evs)%list /\
                      (List.length evs <= 1)%nat) as Hsame
    by (exists []; rewrite app_nil_r; cbn; split; [reflexivity|lia]).
  destruct c as [s r dst w co ed n|tn st loc msg].
  - rewrite perform_create.
    destruct (stored (default_tracking_number e) db); [exact Hsame|].
    destruct (storage_ok e 0); [|exact Hsame].
    cbn zeta. destruct (storage_ok e 1); [|exact Hsame].
    eexists [_]. split; [reflexivity|cbn; lia].
  - rewrite perform_update_status.
    destruct (storage_ok e 0); [|exact Hsame].
    cbn zeta. destruct (find _ _) as [row|]; [|exact Hsame].
    destruct (_row_to_delivery row); [|exact Hsame].
    destruct (storage_ok e 1); [|exact Hsame].
    eexists [_]. split; [reflexivity|cbn; lia].
Qed.

(** X9: the event log is append-only: the events stored after a run are,
    unchanged and in the same order, the first events stored after any
    longer run, and one call appends at most one event. *)
Theorem tracking_events_append_only :
  (forall e c db,
     exists evs, tracking_events (perform e c db) = (tracking_events db ++ evs)%list /\
                 (List.length evs <= 1)%nat) /\
  (forall later_calls run,
     exists evs,
       tracking_events (store_after (later_calls ++ run)) =
       (tracking_events (store_after run) ++ evs)%list).
Proof.
  split; [exact perform_appends_events|].
  intros later_calls run.
  induction later_calls as [|[e c] calls [evs IH]]; cbn [app store_after].
  - exists []. now rewrite app_nil_r.
  - destruct (perform_appends_events e c (store_after (calls ++ run))) as (evs' & -> & _).
    exists (evs ++ evs')%list. now rewrite IH, app_assoc.
Qed.

Lemma ids_up_to_succ n : ids_up_to (S n) = (ids_up_to n ++ [Z.of_nat n + 1])%list.
Proof.
  unfold ids_up_to. rewrite seq_S, map_app. cbn [map]. do 2 f_equal. lia.
Qed.

Lemma numbered_with_row db r :
  numbered db -> Row.id r = seq_deliveries db + 1 -> numbered (with_row db r).
Proof.
  intros (Hr & Hsr & He & Hse) Hid. unfold numbered, with_row.
  cbn [deliveries tracking_events seq_deliveries seq_tracking_events].
  rewrite length_app, map_app, Nat.add_comm. cbn [List.length map Nat.add].
  rewrite ids_up_to_succ, Hr, Hid, Hsr.
  repeat split; try assumption. lia.
Qed.

Lemma numbered_with_event e db did st loc msg :
  numbered db -> numbered (with_event e db did st loc msg).
Proof.
  intros (Hr & Hsr & He & Hse). unfold numbered, with_event.
  cbn [deliveries tracking_events seq_deliveries seq_tracking_events].
  rewrite length_app, map_app, Nat.add_comm. cbn [List.length map Nat.add Event.id].
  rewrite ids_up_to_succ, He, Hse.
  repeat split; try assumption. lia.
Qed.

Lemma numbered_with_status e db tn st : numbered db -> numbered (with_status e db tn st).
Proof.
  intros (Hr & Hsr & He & Hse). unfold numbered, with_status.
  cbn [deliveries tracking_events seq_deliveries seq_tracking_events].
  rewrite map_id_update_row, length_map. now repeat split.
Qed.

Lemma numbered_perform e c db : numbered db -> numbered (perform e c db).
Proof.
  intros H. destruct c as [s r dst w co ed n|tn st loc msg].
  - rewrite perform_create.
    destruct (stored (default_tracking_number e) db); [exact H|].
    destruct (storage_ok e 0); [|exact H].
    assert (numbered (with_row db (inserted_row e db s r dst w co ed n))) as H1
      by (now apply numbered_with_row).
    cbn zeta. destruct (storage_ok e 1); [now apply numbered_with_event|exact H1].
  - rewrite perform_update_status.
    destruct (storage_ok e 0); [|exact H].
    pose proof (numbered_with_status e db tn st H) as H1.
    cbn zeta. destruct (find _ _) as [row|]; [|exact H1].
    destruct (_row_to_delivery row); [|exact H1].
    destruct (storage_ok e 1); [now apply numbered_with_event|exact H1].
Qed.

(** X10: ids are handed out in order and without gaps: after any run the
    k-th row of [deliveries] has id k and the k-th row of [tracking_events]
    has id k, and the two AUTOINCREMENT counters are the numbers of rows. *)
Theorem ids_are_consecutive run :
  map Row.id (deliveries (store_after run)) =
    ids_up_to (List.length (deliveries (store_after run))) /\
  seq_deliveries (store_after run) = Z.of_nat (List.length (deliveries (store_after run))) /\
  map Event.id (tracking_events (store_after run)) =
    ids_up_to (List.length (tracking_events (store_after run))) /\
  seq_tracking_events (store_after run) =
    Z.of_nat (List.length (tracking_events (store_after run))).
Proof.
  change (numbered (store_after run)).
  induction run as [|[e c] earlier IH]; [now repeat split|].
  cbn [store_after]. now apply numbered_perform.
Qed.

(** ** History *)

Lemma timestamp_asc_total a b : timestamp_asc a b = true \/ timestamp_asc b a = true.
Proof. apply String.leb_total. Qed.

Lemma timestamp_asc_trans a b c :
  timestamp_asc a b = true -> timestamp_asc b c = true -> timestamp_asc a c = true.
Proof.
  unfold timestamp_asc. intros H1 H2. now apply string_leb_trans with (Event.timestamp b).
Qed.

(** X11: [history] never changes the store; for a tracking number that is
    not stored it returns the empty list; a list it returns for a stored one
    holds exactly the events that refer to that Shipment, each once, in
    ascending order of timestamp; and the only exception it raises is
    [ValueError], for a stored row whose status is no declared value. *)
Theorem history_sorted_events tn db :
  snd (history tn db) = db /\
  (stored tn db = false -> fst (history tn db) = Ok []) /\
  (forall h, fst (history tn db) = Ok h -> stored tn db = true ->
     exists r, In r (deliveries db) /\ Row.tracking_number r = tn /\
               Permutation h (events_of (Row.id r) db) /\
               Forall (fun ev => Event.delivery_id ev = Row.id r) h /\
               StronglySorted (fun a b => timestamp_asc a b = true) h) /\
  (forall x, fst (history tn db) = Raise x ->
     x = ValueError /\
     exists r, In r (deliveries db) /\ Row.tracking_number r = tn /\ undeclared r).
Proof.
  rewrite history_cases.
  destruct (find _ (deliveries db)) as [r|] eqn:Hf.
  - pose proof (find_some _ _ Hf) as [Hin Htn]. apply String.eqb_eq in Htn.
    assert (stored tn db = true) as Hst by (apply stored_true_find; now exists r).
    destruct (_row_to_delivery r) as [d|x] eqn:Hd; cbn [fst snd].
    + split; [reflexivity|]. split; [congruence|]. split; [|discriminate].
      intros h H _. injection H as <-.
      exists r. split; [exact Hin|]. split; [exact Htn|].
      split; [apply order_by_perm|]. split.
      * apply Forall_forall. intros ev Hev.
        eapply Permutation_in in Hev; [|apply order_by_perm].
        apply filter_In in Hev as [_ Hev]. now apply Z.eqb_eq.
      * apply order_by_sorted; [apply timestamp_asc_total|apply timestamp_asc_trans].
    + split; [reflexivity|]. split; [congruence|]. split; [discriminate|].
      intros x' H. injection H as <-.
      split; [now apply _row_to_delivery_raises in Hd|].
      exists r. split; [exact Hin|]. split; [exact Htn|].
      now apply _row_to_delivery_raise_undeclared in Hd.
  - cbn [fst snd]. split; [reflexivity|]. split; [reflexivity|].
    split; [|discriminate].
    intros h _ Hst. apply stored_find in Hf. congruence.
Qed.

Lemma history_sorted_events_witness :
  stored "BRZZZZZZZZZZ" two_parcels = false /\
  fst (history "BRZZZZZZZZZZ" two_parcels) = Ok [] /\
  exists h r,
    fst (history "BRAAAAAAAAAA" (store_after picked_up_then_delivered)) = Ok h /\
    In r (deliveries (store_after picked_up_then_delivered)) /\
    Permutation h (events_of (Row.id r) (store_after picked_up_then_delivered)) /\
    StronglySorted (fun a b => timestamp_asc a b = true) h.
Proof.
  split; [reflexivity|].
  split; [apply (history_sorted_events "BRZZZZZZZZZZ" two_parcels); reflexivity|].
  eexists.
  destruct (history_sorted_events "BRAAAAAAAAAA" (store_after picked_up_then_delivered))
    as (_ & _ & Hok & _).
  destruct (Hok _ eq_refl eq_refl) as (r & Hin & _ & Hperm & _ & Hsorted).
  exists r. split; [reflexivity|]. split; [exact Hin|]. split; [exact Hperm|exact Hsorted].
Defined.

(** ** Listing: edge cases and failure *)

Lemma rows_to_deliveries_spec rows :
  match rows_to_deliveries rows with
  | Ok ds => Forall2 decodes_to rows ds
  | Raise x => x = ValueError /\ exists r, In r rows /\ undeclared r
  end.
Proof.
  induction rows as [|r rows IH]; cbn; [constructor|].
  destruct (_row_to_delivery r) as [d|x] eqn:Hd.
  - destruct (rows_to_deliveries rows) as [ds|x].
    + now constructor.
    + destruct IH as (-> & r' & Hin & Hr'). split; [reflexivity|].
      exists r'. split; [now right|exact Hr'].
  - split; [now apply _row_to_delivery_raises in Hd|].
    exists r. split; [now left|now apply _row_to_delivery_raise_undeclared in Hd].
Qed.

Lemma selected_rows_stored status db r :
  In r (order_by updated_at_desc
          match truthy status with
          | Some s => filter (fun r => Row.status r =? s)%string (deliveries db)
          | None => deliveries db
          end) ->
  In r (deliveries db).
Proof.
  intros H. eapply Permutation_in in H; [|apply order_by_perm].
  destruct (truthy status); [now apply filter_In in H as [? _]|exact H].
Qed.

(** X12: [list_deliveries] never changes the store; the empty string as
    filter is taken as no filter; on a store whose statuses are all declared,
    a non-empty filter that is no declared value selects nothing; the only
    exception raised is [ValueError], and only when some stored row has a
    status that is no declared value; with no filter, one such row is enough
    to make the call raise. *)
Theorem list_deliveries_edge_cases db :
  (forall status, snd (list_deliveries status db) = db) /\
  list_deliveries (Some "") db = list_deliveries None db /\
  (forall st, st <> "" -> (forall s, value s <> st) -> statuses_declared db ->
     list_deliveries (Some st) db = (Ok [], db)) /\
  (forall status x, fst (list_deliveries status db) = Raise x ->
     x = ValueError /\ exists r, In r (deliveries db) /\ undeclared r) /\
  ((exists r, In r (deliveries db) /\ undeclared r) ->
   fst (list_deliveries None db) = Raise ValueError).
Proof.
  split; [reflexivity|]. split; [reflexivity|]. split; [|split].
  - intros st Hne Hund Hdecl. unfold list_deliveries.
    rewrite truthy_nonempty by exact Hne.
    assert (forall rows, (forall r, In r rows -> exists s, Row.status r = value s) ->
              filter (fun r => Row.status r =? st)%string rows = []) as Hnone.
    { induction rows as [|r rows IH]; intros Hrows; cbn; [reflexivity|].
      destruct (Hrows r (or_introl eq_refl)) as [s Hs].
      destruct (String.eqb_spec (Row.status r) st) as [H|_];
        [now elim (Hund s); rewrite <- Hs|].
      apply IH. intros r' Hr'. apply Hrows. now right. }
    now rewrite (Hnone (deliveries db) Hdecl).
  - intros status x H. unfold list_deliveries in H. cbn [fst] in H.
    match type of H with rows_to_deliveries ?l = _ =>
      pose proof (rows_to_deliveries_spec l) as Hspec end.
    rewrite H in Hspec. destruct Hspec as (-> & r & Hin & Hr).
    split; [reflexivity|]. exists r. split; [|exact Hr].
    now apply selected_rows_stored in Hin.
  - intros (r & Hin & Hr). unfold list_deliveries. cbn [fst truthy].
    apply rows_to_deliveries_raises with r.
    + eapply Permutation_in; [symmetry; apply order_by_perm|exact Hin].
    + now apply _row_to_delivery_undeclared.
Qed.

Lemma list_deliveries_edge_cases_witness :
  "lost" <> "" /\ (forall s, value s <> "lost") /\ statuses_declared two_parcels /\
  list_deliveries (Some "lost") two_parcels = (Ok [], two_parcels) /\
  (exists r, In r (deliveries lost_parcel) /\ undeclared r) /\
  fst (list_deliveries None lost_parcel) = Raise ValueError.
Proof.
  assert ("lost" <> "") as Hne by discriminate.
  assert (forall s, value s <> "lost") as Hund by (intros []; discriminate).
  assert (statuses_declared two_parcels) as Hdecl
    by (intros r [<-|[<-|[]]]; exists PENDING; reflexivity).
  assert (exists r, In r (deliveries lost_parcel) /\ undeclared r) as Hbad
    by (eexists; split; [left; reflexivity|intros []; discriminate]).
  destruct (list_deliveries_edge_cases two_parcels) as (_ & _ & Hnone & _).
  destruct (list_deliveries_edge_cases lost_parcel) as (_ & _ & _ & _ & Hraise).
  split; [exact Hne|]. split; [exact Hund|]. split; [exact Hdecl|].
  split; [exact (Hnone "lost" Hne Hund Hdecl)|].
  split; [exact Hbad|exact (Hraise Hbad)].
Defined.

(** ** Dicts *)

Lemma dict_get_set {V} (d : dict V) k v k' def :
  dict_get (dict_set d k v) k' def = if (k =? k')%string then v else dict_get d k' def.
Proof.
  induction d as [|[k0 v0] d IH]; cbn; [reflexivity|].
  destruct (String.eqb_spec k0 k) as [->|Hk]; cbn.
  - now destruct (k =? k')%string.
  - rewrite IH. destruct (String.eqb_spec k0 k') as [->|_]; [|reflexivity].
    destruct (String.eqb_spec k k') as [->|_]; [congruence|reflexivity].
Qed.

Lemma dict_set_entries {V} (d : dict V) k v k' v' :
  In (k', v') (dict_set d k v) -> (k' = k /\ v' = v) \/ In (k', v') d.
Proof.
  induction d as [|[k0 v0] d IH]; cbn.
  - intros [H|[]]. injection H as <- <-. now left.
  - destruct (String.eqb_spec k0 k) as [->|Hk]; cbn.
    + intros [H|H]; [injection H as <- <-; now left|now right; right].
    + intros [H|H]; [now right; left|].
      destruct (IH H) as [?|?]; [now left|now right; right].
Qed.

Lemma dict_set_keys {V} (d : dict V) k v :
  NoDup (map fst d) -> NoDup (map fst (dict_set d k v)).
Proof.
  induction d as [|[k0 v0] d IH]; cbn; [repeat constructor; intros []|].
  intros Hnd. inversion Hnd as [|? ? Hk0 Hnd']; subst.
  destruct (String.eqb_spec k0 k) as [->|Hk]; cbn; [now constructor|].
  constructor; [|now apply IH].
  intros Hin. apply in_map_iff in Hin as ([k1 v1] & Hfst & Hin). cbn in Hfst; subst k1.
  apply dict_set_entries in Hin as [[? _]|Hin]; [congruence|].
  apply Hk0. apply in_map_iff. now exists (k0, v1).
Qed.

Lemma sum_from l a : fold_left Z.add l a = a + sum l.
Proof.
  unfold sum. revert a. induction l as [|x l IH]; intros a; cbn; [lia|].
  rewrite (IH (a + x)), (IH x). lia.
Qed.

Lemma sum_cons x l : sum (x :: l) = x + sum l.
Proof. unfold sum at 1. cbn. apply sum_from. Qed.

Lemma sum_ones {A} (l : list A) : sum (map (fun _ => 1) l) = Z.of_nat (List.length l).
Proof.
  induction l as [|x l IH]; [reflexivity|].
  cbn [map List.length]. rewrite sum_cons, IH. lia.
Qed.

Lemma sum_dict_set_incr (d : dict Z) k :
  sum (map snd (dict_set d k (dict_get d k 0 + 1))) = sum (map snd d) + 1.
Proof.
  induction d as [|[k0 v0] d IH]; [reflexivity|].
  cbn [dict_set dict_get].
  destruct (String.eqb_spec k0 k) as [->|Hk]; cbn [map snd].
  - rewrite !sum_cons. lia.
  - rewrite !sum_cons, IH. lia.
Qed.

(** ** Statistics *)

(** The loop of [stats] over the listed Shipments, from the dict [acc]. *)
Lemma tally_counts (items : list Delivery.t) (acc : dict Z) :
  let by_status :=
    fold_left
      (fun (by_status : dict Z) d =>
         dict_set by_status (value (Delivery.status d))
                  (dict_get by_status (value (Delivery.status d)) 0 + 1))
      items acc in
  (forall v, dict_get by_status v 0 =
             dict_get acc v 0 +
             Z.of_nat (List.length
                         (filter (fun d => value (Delivery.status d) =? v)%string items))) /\
  (NoDup (map fst acc) -> NoDup (map fst by_status)) /\
  ((forall k n, In (k, n) acc -> (exists s, k = value s) /\ 0 < n) ->
   forall k n, In (k, n) by_status -> (exists s, k = value s) /\ 0 < n) /\
  sum (map snd by_status) = sum (map snd acc) + Z.of_nat (List.length items).
Proof.
  revert acc. induction items as [|d items IH]; intros acc; cbn zeta.
  - cbn [fold_left filter List.length]. split; [intros v; lia|].
    split; [trivial|]. split; [trivial|]. lia.
  - cbn [fold_left].
    set (acc' := dict_set acc (value (Delivery.status d))
                   (dict_get acc (value (Delivery.status d)) 0 + 1)).
    destruct (IH acc') as (Hget & Hkeys & Hent & Hsum). cbn zeta in *.
    split; [|split; [|split]].
    + intros v. rewrite Hget. unfold acc'. rewrite dict_get_set. cbn [filter].
      destruct (String.eqb_spec (value (Delivery.status d)) v) as [->|_];
        cbn [List.length]; lia.
    + intros Hnd. apply Hkeys. now apply dict_set_keys.
    + intros Hacc. apply Hent. intros k n Hin.
      apply dict_set_entries in Hin as [[-> ->]|Hin]; [|now apply Hacc].
      split; [now eexists|].
      assert (0 <= dict_get acc (value (Delivery.status d)) 0); [|lia].
      clear - Hacc. induction acc as [|[k0 v0] acc IHacc]; cbn; [lia|].
      destruct (k0 =? _)%string.
      * destruct (Hacc k0 v0 (or_introl eq_refl)) as [_ ?]. lia.
      * apply IHacc. intros k n Hin. apply Hacc. now right.
    + rewrite Hsum. unfold acc'. rewrite sum_dict_set_incr. cbn [List.length]. lia.
Qed.

Lemma Permutation_filter_length {A} (f : A -> bool) l l' :
  Permutation l l' -> List.length (filter f l) = List.length (filter f l').
Proof.
  induction 1 as [|x l l' _ IH|x y l|l l' l'' _ IH1 _ IH2]; cbn.
  - reflexivity.
  - destruct (f x); cbn; now rewrite IH.
  - destruct (f x), (f y); reflexivity.
  - now rewrite IH1.
Qed.

Lemma decoded_filter_length (f : Row.t -> bool) (g : Delivery.t -> bool) rows ds :
  (forall r d, decodes_to r d -> g d = f r) ->
  Forall2 decodes_to rows ds ->
  List.length (filter g ds) = List.length (filter f rows).
Proof.
  intros Hfg. induction 1 as [|r d rows ds Hd _ IH]; cbn; [reflexivity|].
  rewrite (Hfg r d Hd). destruct (f r); cbn; now rewrite IH.
Qed.

Lemma is_active_active_row r d : decodes_to r d -> Delivery.is_active d = active_row r.
Proof.
  intros H. apply _row_to_delivery_fields in H as (_ & _ & _ & _ & H).
  unfold Delivery.is_active, active_row. rewrite <- H.
  now destruct (Delivery.status d).
Qed.

(** What [stats] returns on a store whose statuses are all declared. *)
Lemma stats_declared db :
  statuses_declared db ->
  exists st,
    stats db = (Ok st, db) /\
    Stats.total st = Z.of_nat (List.length (deliveries db)) /\
    Stats.active st = Z.of_nat (List.length (filter active_row (deliveries db))) /\
    (forall v, dict_get (Stats.by_status st) v 0 =
               Z.of_nat (count_status v (deliveries db))) /\
    NoDup (map fst (Stats.by_status st)) /\
    (forall k n, In (k, n) (Stats.by_status st) -> (exists s, k = value s) /\ 0 < n) /\
    sum (map snd (Stats.by_status st)) = Stats.total st.
Proof.
  intros Hdecl.
  destruct (list_deliveries_rows None db _ eq_refl Hdecl)
    as (ds & rows & Hl & Hall & Hperm & _).
  unfold stats, bind. rewrite Hl. cbn [ret].
  eexists. split; [reflexivity|]. cbn [Stats.total Stats.active Stats.by_status].
  assert (List.length ds = List.length (deliveries db)) as Hlen
    by (rewrite <- (Forall2_length Hall); now apply Permutation_length).
  destruct (tally_counts ds []) as (Hget & Hkeys & Hent & Hsum). cbn zeta in *.
  split; [now rewrite Hlen|]. split; [|split; [|split; [|split]]].
  - rewrite sum_ones. f_equal.
    rewrite (decoded_filter_length active_row Delivery.is_active rows ds)
      by (exact is_active_active_row || exact Hall).
    now apply Permutation_filter_length.
  - intros v. rewrite Hget. cbn [dict_get]. rewrite Z.add_0_l. f_equal.
    unfold count_status.
    rewrite (decoded_filter_length (fun r => Row.status r =? v)%string _ rows ds);
      [now apply Permutation_filter_length| |exact Hall].
    intros r d Hd. apply _row_to_delivery_fields in Hd as (_ & _ & _ & _ & Hd).
    now rewrite Hd.
  - apply Hkeys. constructor.
  - apply Hent. intros k n [].
  - rewrite Hsum. cbn. now rewrite Hlen.
Qed.


(** X13: on a store whose statuses are all declared, [stats] returns
    without changing the store: [total] is the number of stored Shipments,
    [active] the number of those whose status is none of Delivered, Returned
    and Cancelled, and [by_status] gives for every status value the number
    of Shipments in that status; its keys are distinct, are values of
    declared statuses, have positive counts, and the counts add up to
    [total]. *)
Theorem stats_counts db :
  statuses_declared db ->
  exists st,
    stats db = (Ok st, db) /\
    Stats.total st = Z.of_nat (List.length (deliveries db)) /\
    Stats.active st = Z.of_nat (List.length (filter active_row (deliveries db))) /\
    (forall v, dict_get (Stats.by_status st) v 0 =
               Z.of_nat (count_status v (deliveries db))) /\
    NoDup (map fst (Stats.by_status st)) /\
    (forall k n, In (k, n) (Stats.by_status st) -> (exists s, k = value s) /\ 0 < n) /\
    sum (map snd (Stats.by_status st)) = Stats.total st.
Proof. exact (stats_declared db). Qed.

Lemma stats_counts_witness :
  statuses_declared (store_after picked_up_then_delivered) /\
  exists st,
    stats (store_after picked_up_then_delivered)
      = (Ok st, store_after picked_up_then_delivered) /\
    Stats.total st = 1 /\ Stats.active st = 0 /\
    dict_get (Stats.by_status st) "delivered" 0 = 1.
Proof.
  assert (statuses_declared (store_after picked_up_then_delivered)) as Hdecl
    by (intros r [<-|[]]; exists DELIVERED; reflexivity).
  split; [exact Hdecl|].
  destruct (stats_counts _ Hdecl) as (st & Hst & Htotal & Hactive & Hby & _).
  exists st. split; [exact Hst|]. split; [exact Htotal|]. split; [exact Hactive|].
  exact (Hby "delivered").
Defined.

(** ** Export *)





(** ** One undecodable row *)

(** X15: one stored row whose status is no declared value makes the
    reads over the whole table fail: [stats] and [export_json] raise
    [ValueError], and so does [history] of that Shipment, each leaving the
    store as it is. *)
Theorem undeclared_status_breaks_reads writable path db r :
  consistent db -> In r (deliveries db) -> undeclared r ->
  stats db = (Raise ValueError, db) /\
  export_json writable path db = (Raise ValueError, db) /\
  history (Row.tracking_number r) db = (Raise ValueError, db).
Proof.
  intros Hc Hin Hr.
  assert (list_deliveries None db = (Raise ValueError, db)) as Hl.
  { unfold list_deliveries. cbn [truthy]. f_equal.
    apply rows_to_deliveries_raises with r.
    - eapply Permutation_in; [symmetry; apply order_by_perm|exact Hin].
    - now apply _row_to_delivery_undeclared. }
  split; [unfold stats, bind; now rewrite Hl|].
  split; [unfold export_json, bind; now rewrite Hl|].
  rewrite history_cases.
  assert (stored (Row.tracking_number r) db = true) as Hst.
  { destruct (stored (Row.tracking_number r) db) eqn:E; [reflexivity|].
    rewrite stored_false_iff in E. now elim (E r Hin). }
  destruct (find_stored _ db Hst) as (r' & Hf & Htn).
  rewrite Hf. pose proof (find_some _ _ Hf) as [Hin' _].
  assert (r' = r) as ->
    by (apply (NoDup_map_injective Row.tracking_number (deliveries db));
        [apply (tracking_numbers_distinct db Hc)|assumption..]).
  now rewrite _row_to_delivery_undeclared.
Qed.

Lemma undeclared_status_breaks_reads_witness :
  exists r,
    consistent lost_parcel /\ In r (deliveries lost_parcel) /\ undeclared r /\
    stats lost_parcel = (Raise ValueError, lost_parcel) /\
    export_json (fun _ => true) "out.json" lost_parcel = (Raise ValueError, lost_parcel) /\
    history (Row.tracking_number r) lost_parcel = (Raise ValueError, lost_parcel).
Proof.
  eexists.
  assert (consistent lost_parcel) as Hc by apply consistent_store_after.
  split; [exact Hc|]. split; [left; reflexivity|].
  match goal with |- undeclared ?r /\ _ =>
    assert (undeclared r) as Hr by (intros []; discriminate) end.
  split; [exact Hr|].
  exact (undeclared_status_breaks_reads (fun _ => true) "out.json" lost_parcel _ Hc
           (or_introl eq_refl) Hr).
Defined.

(** ** Runs with declared statuses only *)

Lemma statuses_declared_perform e c db :
  (forall tn st loc msg, c = UpdateStatus tn st loc msg -> exists s, st = value s) ->
  statuses_declared db -> statuses_declared (perform e c db).
Proof.
  intros Hst Hdecl r Hin.
  destruct (perform_deliveries e c db)
    as [Heq|[(s & r0 & dst & w & co & ed & n & _ & _ & Heq)|(tn & st & loc & msg & Hc & Heq)]];
    rewrite Heq in Hin.
  - now apply Hdecl.
  - apply in_app_or in Hin as [Hin|[<-|[]]]; [now apply Hdecl|].
    now exists PENDING.
  - apply in_map_iff in Hin as (r1 & <- & H1).
    unfold update_row. destruct (Row.tracking_number r1 =? tn)%string; [|now apply Hdecl].
    cbn. exact (Hst tn st loc msg Hc).
Qed.

(** X16: when every [update_status] call of a run is given one of the
    declared status values (as the command line's [choices] guarantee),
    every stored status is a declared value after the run, so that [get]
    does not raise and the unfiltered listing returns all stored Shipments. *)
Theorem declared_runs_stay_readable run :
  (forall e tn st loc msg,
     In (e, UpdateStatus tn st loc msg) run -> exists s, st = value s) ->
  statuses_declared (store_after run) /\
  (forall tn x, fst (get tn (store_after run)) <> Raise x) /\
  exists ds,
    list_deliveries None (store_after run) = (Ok ds, store_after run) /\
    List.length ds = List.length (deliveries (store_after run)).
Proof.
  intros Hrun.
  assert (statuses_declared (store_after run)) as Hdecl.
  { induction run as [|[e c] earlier IH]; [intros r []|].
    cbn [store_after]. apply statuses_declared_perform.
    - intros tn st loc msg ->. apply (Hrun e tn st loc msg). now left.
    - apply IH. intros e' tn st loc msg H. apply (Hrun e' tn st loc msg). now right. }
  split; [exact Hdecl|]. split.
  - intros tn x H. unfold get in H.
    destruct (find _ _) as [r|] eqn:Hf; [|discriminate].
    apply find_some in Hf as [Hin _]. destruct (Hdecl r Hin) as [s Hs].
    destruct (_row_to_delivery_declared r s Hs) as (d & Hd & _).
    rewrite Hd in H. discriminate.
  - destruct (list_deliveries_rows None (store_after run) _ eq_refl Hdecl)
      as (ds & rows & Hl & Hall & Hperm & _).
    exists ds. split; [exact Hl|].
    rewrite <- (Forall2_length Hall). now apply Permutation_length.
Qed.

Lemma declared_runs_stay_readable_witness :
  statuses_declared (store_after delivered_then_in_transit) /\
  exists ds,
    list_deliveries None (store_after delivered_then_in_transit)
      = (Ok ds, store_after delivered_then_in_transit) /\
    List.length ds = 1%nat.
Proof.
  assert (forall e tn st loc msg,
            In (e, UpdateStatus tn st loc msg) delivered_then_in_transit ->
            exists s, st = value s) as Hrun.
  { intros e tn st loc msg [H|[H|[H|[]]]]; [| |discriminate];
      injection H as _ _ <- _ _; [now exists IN_TRANSIT|now exists DELIVERED]. }
  destruct (declared_runs_stay_readable delivered_then_in_transit Hrun)
    as (Hdecl & _ & ds & Hl & Hlen).
  split; [exact Hdecl|]. exists ds. split; [exact Hl|exact Hlen].
Defined.

(** ** The most recently touched Shipment *)

Lemma string_ltb_not_leb a b : String.ltb a b = true -> String.leb b a = false.
Proof.
  unfold String.ltb, String.leb. rewrite (String.compare_antisym a b).
  now destruct (String.compare b a).
Qed.

Lemma Forall2_in_left {A B} (R : A -> B -> Prop) l l' x :
  Forall2 R l l' -> In x l -> exists y, In y l' /\ R x y.
Proof.
  induction 1 as [|a b l l' Hab _ IH]; intros Hin; [destruct Hin|].
  destruct Hin as [<-|Hin].
  - exists b. split; [now left|exact Hab].
  - destruct (IH Hin) as (y & Hy & Hxy). exists y. split; [now right|exact Hxy].
Qed.

(** X17: when the time of an [update_status] call is later than the
    [updated_at] of every other stored Shipment, the Shipment it returns is
    the first of the unfiltered listing that follows. *)
Theorem updated_shipment_listed_first e tn st loc msg db d db' :
  consistent db -> statuses_declared db ->
  (forall r, In r (deliveries db) -> Row.tracking_number r <> tn ->
             String.ltb (Row.updated_at r) (clock e 0) = true) ->
  update_status e tn st loc msg db = (Ok (Some d), db') ->
  exists ds, list_deliveries None db' = (Ok (d :: ds), db').
Proof.
  intros Hc Hdecl Hnewer Hup.
  assert (db' = perform e (UpdateStatus tn st loc msg) db) as Hperf
    by (unfold perform; now rewrite Hup).
  pose proof Hup as Hret.
  apply update_status_returns in Hret as (r0 & Hf & Htn & Hd & Hdb' & _).
  pose proof (find_some _ _ Hf) as [Hin0 _].
  set (upd := update_row tn st
                (if (st =? "delivered")%string then Some (clock e 0) else None)
                (clock e 0)) in *.
  assert (deliveries db' = map upd (deliveries db)) as Hrows by (now rewrite Hdb').
  assert (statuses_declared db') as Hdecl'.
  { rewrite Hperf. apply statuses_declared_perform; [|exact Hdecl].
    intros tn1 st1 loc1 msg1 H. injection H as _ <- _ _.
    exists (Delivery.status d).
    apply _row_to_delivery_fields in Hd as (_ & _ & _ & _ & ->).
    symmetry. now apply update_row_same. }
  destruct (list_deliveries_rows None db' _ eq_refl Hdecl')
    as (ds0 & sorted & Hl & Hall & Hperm & Hsorted).
  assert (In d ds0) as Hind.
  { assert (In (upd r0) sorted) as Hs
      by (eapply Permutation_in; [symmetry; exact Hperm|];
          rewrite Hrows; now apply in_map).
    destruct (Forall2_in_left _ _ _ _ Hall Hs) as (d' & Hd' & Hdec).
    unfold decodes_to in Hdec. congruence. }
  destruct Hall as [|rh h srest t Hh Hall]; [destruct Hind|].
  exists t. rewrite Hl. do 3 f_equal.
  assert (In rh (deliveries db')) as Hinh
    by (eapply Permutation_in; [exact Hperm|now left]).
  rewrite Hrows in Hinh. apply in_map_iff in Hinh as (r1 & Hr1 & Hin1).
  destruct (String.eqb_spec (Row.tracking_number r1) tn) as [Ht|Ht].
  - assert (r1 = r0) as ->
      by (apply (NoDup_map_injective Row.tracking_number (deliveries db));
          [apply (tracking_numbers_distinct db Hc)|assumption|assumption|congruence]).
    unfold decodes_to in Hh. congruence.
  - exfalso.
    assert (rh = r1) as -> by (rewrite <- Hr1; now apply update_row_other).
    destruct Hind as [->|Hint].
    + apply _row_to_delivery_fields in Hh as (_ & Ht1 & _), Hd as (_ & Ht0 & _).
      unfold upd in Ht0. rewrite update_row_tracking_number in Ht0. congruence.
    + apply StronglySorted_inv in Hsorted as [_ Hhead].
      rewrite Forall_forall in Hhead. specialize (Hhead d Hint).
      unfold most_recent_first in Hhead.
      apply _row_to_delivery_fields in Hh as (Hu1 & _), Hd as (Hu0 & _).
      rewrite Hu1, Hu0 in Hhead.
      destruct (update_row_same tn st
                  (if (st =? "delivered")%string then Some (clock e 0) else None)
                  (clock e 0) r0 Htn) as (_ & Hnow & _).
      fold upd in Hnow. rewrite Hnow in Hhead.
      pose proof (string_ltb_not_leb _ _ (Hnewer r1 Hin1 Ht)). congruence.
Qed.

Lemma updated_shipment_listed_first_witness :
  exists d db' ds,
    update_status afterwards "BRAAAAAAAAAA" "in_transit" "" "" two_parcels
      = (Ok (Some d), db') /\
    list_deliveries None two_parcels
      = (Ok [returned_delivery later one_parcel "Carol" "Dan" "9 Elm Rd" 1%float "" None "";
             returned_delivery calm init_db "Alice" "Bob" "123 Main St" 2.5%float
               "" None ""],
         two_parcels) /\
    list_deliveries None db' = (Ok (d :: ds), db').
Proof.
  assert (consistent two_parcels) as Hc by apply consistent_store_after.
  assert (statuses_declared two_parcels) as Hdecl
    by (intros r [<-|[<-|[]]]; exists PENDING; reflexivity).
  assert (forall r, In r (deliveries two_parcels) -> Row.tracking_number r <> "BRAAAAAAAAAA" ->
                    String.ltb (Row.updated_at r) (clock afterwards 0) = true) as Hnewer
    by (intros r [<-|[<-|[]]] H; [now elim H|reflexivity]).
  destruct (update_status afterwards "BRAAAAAAAAAA" "in_transit" "" "" two_parcels)
    as [[[d|]|] db'] eqn:E; try (vm_compute in E; discriminate).
  destruct (updated_shipment_listed_first afterwards "BRAAAAAAAAAA" "in_transit" "" ""
              two_parcels d db' Hc Hdecl Hnewer E) as (ds & Hl).
  exists d, db', ds. split; [reflexivity|]. split; [reflexivity|exact Hl].
Defined.

(** ** Statistics after a call *)

(** Counting the rows that satisfy [f] after the UPDATE of the one row that
    carries the tracking number. *)
Lemma count_after_update (f : Row.t -> bool) tn st a now rows r0 :
  NoDup (map Row.tracking_number rows) -> In r0 rows -> Row.tracking_number r0 = tn ->
  Z.of_nat (List.length (filter f (map (update_row tn st a now) rows))) =
  Z.of_nat (List.length (filter f rows)) - Z.b2z (f r0)
  + Z.b2z (f (update_row tn st a now r0)).
Proof.
  induction rows as [|r rows IH]; intros Hnd Hin Htn; [destruct Hin|].
  cbn [map] in Hnd. inversion Hnd as [|? ? Hr Hnd']; subst.
  cbn [map filter].
  destruct (String.eqb_spec (Row.tracking_number r) (Row.tracking_number r0)) as [Heq|Hne].
  - assert (r0 = r) as ->.
    { destruct Hin as [->|Hin]; [reflexivity|].
      elim Hr. rewrite Heq. now apply in_map. }
    assert (map (update_row (Row.tracking_number r) st a now) rows = rows) as ->.
    { clear - Hr. induction rows as [|r1 rows IH]; cbn; [reflexivity|].
      rewrite update_row_other, IH; [reflexivity| |];
        [intros H; apply Hr; now right|intros H; apply Hr; left; exact H]. }
    destruct (f r), (f (update_row _ st a now r)); cbn [List.length Z.b2z]; lia.
  - destruct Hin as [->|Hin]; [congruence|].
    rewrite (update_row_other _ st a now r Hne).
    specialize (IH Hnd' Hin eq_refl).
    destruct (f r); cbn [List.length]; lia.
Qed.

(** X18: on a store whose statuses are all declared, a [create] that
    returns raises [total], [active] and the count of ["pending"] in
    [stats] by one each, and leaves the count of every other status as it
    was. *)
Theorem create_then_stats e s r dst w c ed n db d db' :
  statuses_declared db ->
  create e s r dst w c ed n db = (Ok d, db') ->
  exists st0 st1,
    stats db = (Ok st0, db) /\ stats db' = (Ok st1, db') /\
    Stats.total st1 = Stats.total st0 + 1 /\
    Stats.active st1 = Stats.active st0 + 1 /\
    (forall v, dict_get (Stats.by_status st1) v 0 =
               dict_get (Stats.by_status st0) v 0
               + Z.b2z ("pending" =? v)%string).
Proof.
  intros Hdecl H.
  assert (db' = perform e (Create s r dst w c ed n) db) as Hperf
    by (unfold perform; now rewrite H).
  assert (statuses_declared db') as Hdecl'
    by (rewrite Hperf; apply statuses_declared_perform; [discriminate|exact Hdecl]).
  apply create_returns in H as (_ & _ & _ & _ & Hdb').
  assert (deliveries db' = deliveries db ++ [inserted_row e db s r dst w c ed n])%list
    as Hrows by (now rewrite Hdb').
  destruct (stats_declared db Hdecl) as (st0 & H0 & Ht0 & Ha0 & Hb0 & _).
  destruct (stats_declared db' Hdecl') as (st1 & H1 & Ht1 & Ha1 & Hb1 & _).
  exists st0, st1. split; [exact H0|]. split; [exact H1|].
  rewrite Ht1, Ha1, Ht0, Ha0, Hrows, filter_app, !length_app.
  split; [cbn; lia|]. split; [cbn; lia|].
  intros v. rewrite Hb1, Hb0, Hrows. unfold count_status.
  rewrite filter_app, length_app. cbn [filter inserted_row Row.status].
  destruct ("pending" =? v)%string; cbn; lia.
Qed.

Lemma create_then_stats_witness :
  statuses_declared one_parcel /\
  exists d db' st0 st1,
    create later "Carol" "Dan" "9 Elm Rd" 1%float "" None "" one_parcel = (Ok d, db') /\
    stats one_parcel = (Ok st0, one_parcel) /\ stats db' = (Ok st1, db') /\
    Stats.total st1 = Stats.total st0 + 1 /\
    Stats.active st1 = Stats.active st0 + 1.
Proof.
  assert (statuses_declared one_parcel) as Hdecl
    by (intros r [<-|[]]; exists PENDING; reflexivity).
  split; [exact Hdecl|].
  exists (returned_delivery later one_parcel "Carol" "Dan" "9 Elm Rd" 1%float "" None ""),
         two_parcels.
  destruct (create_then_stats later "Carol" "Dan" "9 Elm Rd" 1%float "" None "" one_parcel
              (returned_delivery later one_parcel "Carol" "Dan" "9 Elm Rd" 1%float
                 "" None "")
              two_parcels Hdecl eq_refl) as (st0 & st1 & H0 & H1 & Ht & Ha & _).
  exists st0, st1. split; [reflexivity|]. split; [exact H0|]. split; [exact H1|].
  split; [exact Ht|exact Ha].
Defined.

(** X19: on a consistent store whose statuses are all declared, an
    [update_status] that returns a Shipment leaves [total] in [stats] as it
    was, moves one Shipment from the count of its old status to the count
    of the new one, and changes [active] by whether the Shipment was active
    before and is active now. *)
Theorem update_status_then_stats e tn st loc msg db d db' :
  consistent db -> statuses_declared db ->
  update_status e tn st loc msg db = (Ok (Some d), db') ->
  exists r0 st0 st1,
    In r0 (deliveries db) /\ Row.tracking_number r0 = tn /\
    stats db = (Ok st0, db) /\ stats db' = (Ok st1, db') /\
    Stats.total st1 = Stats.total st0 /\
    Stats.active st1 =
      Stats.active st0 - Z.b2z (active_row r0) + Z.b2z (Delivery.is_active d) /\
    (forall v, dict_get (Stats.by_status st1) v 0 =
               dict_get (Stats.by_status st0) v 0
               - Z.b2z (Row.status r0 =? v)%string + Z.b2z (st =? v)%string).
Proof.
  intros Hc Hdecl Hup.
  assert (db' = perform e (UpdateStatus tn st loc msg) db) as Hperf
    by (unfold perform; now rewrite Hup).
  pose proof Hup as Hret.
  apply update_status_returns in Hret as (r0 & Hf & Htn & Hd & Hdb' & _).
  pose proof (find_some _ _ Hf) as [Hin0 _].
  assert (exists s, st = value s) as Hst.
  { exists (Delivery.status d).
    pose proof Hd as Hd'. apply _row_to_delivery_fields in Hd' as (_ & _ & _ & _ & ->).
    symmetry. now apply update_row_same. }
  assert (statuses_declared db') as Hdecl'.
  { rewrite Hperf. apply statuses_declared_perform; [|exact Hdecl].
    intros tn1 st1 loc1 msg1 H. injection H as _ <- _ _. exact Hst. }
  set (upd := update_row tn st
                (if (st =? "delivered")%string then Some (clock e 0) else None)
                (clock e 0)) in *.
  assert (deliveries db' = map upd (deliveries db)) as Hrows by (now rewrite Hdb').
  destruct (stats_declared db Hdecl) as (st0 & H0 & Ht0 & Ha0 & Hb0 & _).
  destruct (stats_declared db' Hdecl') as (st1 & H1 & Ht1 & Ha1 & Hb1 & _).
  exists r0, st0, st1. split; [exact Hin0|]. split; [exact Htn|].
  split; [exact H0|]. split; [exact H1|].
  pose proof (tracking_numbers_distinct db Hc) as Hnd.
  split; [|split].
  - now rewrite Ht1, Ht0, Hrows, length_map.
  - rewrite Ha1, Ha0, Hrows. unfold upd.
    rewrite (count_after_update active_row tn st _ _ _ r0 Hnd Hin0 Htn).
    now rewrite (is_active_active_row _ d Hd).
  - intros v. rewrite Hb1, Hb0, Hrows. unfold count_status, upd.
    rewrite (count_after_update (fun r => Row.status r =? v)%string tn st _ _ _ r0
               Hnd Hin0 Htn).
    destruct (update_row_same tn st
                (if (st =? "delivered")%string then Some (clock e 0) else None)
                (clock e 0) r0 Htn) as (-> & _). reflexivity.
Qed.

Lemma update_status_then_stats_witness :
  consistent two_parcels /\ statuses_declared two_parcels /\
  exists d db' st0 st1,
    update_status afterwards "BRAAAAAAAAAA" "delivered" "" "" two_parcels
      = (Ok (Some d), db') /\
    stats two_parcels = (Ok st0, two_parcels) /\ stats db' = (Ok st1, db') /\
    Stats.total st1 = Stats.total st0 /\
    Stats.active st1 = Stats.active st0 - 1 /\
    dict_get (Stats.by_status st1) "delivered" 0 =
      dict_get (Stats.by_status st0) "delivered" 0 + 1.
Proof.
  assert (consistent two_parcels) as Hc by apply consistent_store_after.
  assert (statuses_declared two_parcels) as Hdecl
    by (intros r [<-|[<-|[]]]; exists PENDING; reflexivity).
  split; [exact Hc|]. split; [exact Hdecl|].
  destruct (update_status afterwards "BRAAAAAAAAAA" "delivered" "" "" two_parcels)
    as [[[d|]|] db'] eqn:E; try (vm_compute in E; discriminate).
  destruct (update_status_then_stats afterwards "BRAAAAAAAAAA" "delivered" "" ""
              two_parcels d db' Hc Hdecl E)
    as (r0 & st0 & st1 & Hin & Htn & H0 & H1 & Ht & Ha & Hb).
  exists d, db', st0, st1. split; [reflexivity|]. split; [exact H0|]. split; [exact H1|].
  split; [exact Ht|].
  assert (r0 = inserted_row calm init_db "Alice" "Bob" "123 Main St" 2.5%float "" None "")
    as Hr0 by (destruct Hin as [<-|[<-|[]]]; [reflexivity|discriminate]).
  assert (d = Delivery.make "Alice" "Bob" "123 Main St" (Some 2.5%float) DELIVERED
                "BRAAAAAAAAAA"
                None (Some "2024-05-03T18:45:00.000000") "" ""
                "2024-05-01T10:00:00.000000" "2024-05-03T18:45:00.000000" (Some 1))
    as Hd by (vm_compute in E; now injection E as <- _).
  split.
  - rewrite Ha, Hr0, Hd.
    change (Z.b2z (active_row _)) with 1. change (Z.b2z (Delivery.is_active _)) with 0. lia.
  - rewrite (Hb "delivered"), Hr0.
    change (Z.b2z ("delivered" =? "delivered")%string) with 1.
    change (Z.b2z (_ =? "delivered")%string) with 0. lia.
Defined.

(** ** Which draws give the same tracking number *)

Lemma population_pick_injective i j :
  (i < 36)%nat -> (j < 36)%nat ->
  nth i (list_ascii_of_string population) "000"%char =
  nth j (list_ascii_of_string population) "000"%char ->
  i = j.
Proof.
  intros Hi Hj H.
  assert (forall k, (k < 36)%nat ->
            (let n := nat_of_ascii (nth k (list_ascii_of_string population) "000"%char) in
             if (n <? 65)%nat then (n - 22)%nat else (n - 65)%nat) = k) as Hidx
    by (intros k Hk; do 36 (destruct k as [|k]; [reflexivity|]); lia).
  rewrite <- (Hidx i Hi), <- (Hidx j Hj). cbn zeta. now rewrite H.
Qed.

Lemma String_tail_eq a s t : String a s = String a t -> s = t.
Proof. intros H. now injection H. Qed.

(** X20: the 36 characters of the population are distinct, so two calls
    draw the same tracking number exactly when their ten picks are the same
    ten positions of the population. *)
Theorem tracking_numbers_equal_iff_same_picks e1 e2 :
  default_tracking_number e1 = default_tracking_number e2 <->
  forall i, (i < 10)%nat -> (random e1 i mod 36 = random e2 i mod 36)%nat.
Proof.
  unfold default_tracking_number, choices.
  change (String.length population) with 36%nat.
  split.
  - intros H i Hi.
    change ("BR" ++ ?x = "BR" ++ ?y) with
      (String "B" (String "R" x) = String "B" (String "R" y)) in H.
    apply String_tail_eq, String_tail_eq in H.
    apply (f_equal list_ascii_of_string) in H.
    rewrite !list_ascii_of_string_of_list_ascii in H.
    assert (In i (seq 0 10)) as Hin by (apply in_seq; lia).
    pose proof (proj1 map_ext_in_iff H i Hin) as Hpick. cbn beta in Hpick.
    apply population_pick_injective in Hpick;
      [exact Hpick|apply Nat.mod_upper_bound; discriminate..].
  - intros H. do 2 f_equal. apply map_ext_in. intros i Hi.
    apply in_seq in Hi. now rewrite H by lia.
Qed.

Lemma tracking_numbers_equal_iff_same_picks_witness :
  (forall i, (i < 10)%nat -> (random calm i mod 36 = random unlucky i mod 36)%nat) /\
  default_tracking_number calm = default_tracking_number unlucky.
Proof.
  assert (forall i, (i < 10)%nat -> (random calm i mod 36 = random unlucky i mod 36)%nat)
    as H.
  { intros i Hi. cbn [random calm unlucky].
    destruct (Nat.ltb_spec i 10) as [_|Hge]; [reflexivity|lia]. }
  split; [exact H|].
  exact (proj2 (tracking_numbers_equal_iff_same_picks calm unlucky) H).
Defined.

(** ** Tracking numbers of the Shipments created so far *)

Lemma stored_true_iff tn db :
  stored tn db = true <->
  exists r, In r (deliveries db) /\ Row.tracking_number r = tn.
Proof.
  unfold stored. rewrite existsb_exists. split.
  - intros (r & Hin & H). exists r. split; [exact Hin|now apply String.eqb_eq].
  - intros (r & Hin & H). exists r. split; [exact Hin|now apply String.eqb_eq].
Qed.

Lemma perform_keeps_stored e c db tn :
  stored tn db = true -> stored tn (perform e c db) = true.
Proof.
  rewrite !stored_true_iff. intros (r & Hin & Htn).
  destruct (perform_keeps_shipment e c db r Hin) as (r' & Hin' & _ & Htn' & _).
  exists r'. split; [exact Hin'|congruence].
Qed.

(** Every Shipment that a [create] of the run returned is stored after the
    run, under its well-shaped tracking number. *)
Lemma created_stored run :
  forall d, In d (created run) ->
    stored (Delivery.tracking_number d) (store_after run) = true /\
    well_shaped (Delivery.tracking_number d) = true.
Proof.
  induction run as [|[e c] earlier IH]; [intros d []|].
  cbn [created store_after].
  assert (forall d, In d (created earlier) ->
            stored (Delivery.tracking_number d) (perform e c (store_after earlier)) = true /\
            well_shaped (Delivery.tracking_number d) = true) as Hkeep.
  { intros d Hd. destruct (IH d Hd) as [Hst Hsh].
    split; [now apply perform_keeps_stored|exact Hsh]. }
  destruct c as [s r dst w co ed n|tn st loc msg]; [|exact Hkeep].
  destruct (create e s r dst w co ed n (store_after earlier)) as [[d0|x] db'] eqn:E;
    cbn [fst]; [|exact Hkeep].
  intros d [<-|Hd]; [|now apply Hkeep].
  unfold perform. rewrite E. cbn [snd].
  apply create_returns in E as (_ & _ & _ & -> & ->).
  split; [|apply default_tracking_number_well_shaped].
  change (stored (default_tracking_number e)
            (with_row (store_after earlier)
               (inserted_row e (store_after earlier) s r dst w co ed n)) = true).
  rewrite stored_with_row.
  change (Row.tracking_number (inserted_row e (store_after earlier) s r dst w co ed n))
    with (default_tracking_number e).
  now rewrite String.eqb_refl, orb_true_r.
Qed.

Lemma created_fresh run e s r dst w c ed n d db' :
  create e s r dst w c ed n (store_after run) = (Ok d, db') ->
  forall d0, In d0 (created run) ->
    Delivery.tracking_number d0 <> Delivery.tracking_number d.
Proof.
  intros H d0 Hd0 Heq.
  apply create_returns in H as (Hfresh & _ & _ & -> & _).
  destruct (created_stored run d0 Hd0) as [Hst _].
  rewrite Heq in Hst. unfold returned_delivery in Hst.
  cbn [Delivery.tracking_number] in Hst. congruence.
Qed.

(** C8: the Shipment that [create] returns has a tracking number of the
    fixed shape, two fixed characters then ten characters of [A-Z0-9], and
    no Shipment stored before carries it; [create] does return when the
    generated number is free and both writes go through; in the store
    after any run the tracking numbers are pairwise distinct; the
    Shipments that the [create] calls of a run returned all have
    well-shaped, pairwise distinct tracking numbers; and the number of a
    Shipment that [create] returns after a run differs from the number of
    every Shipment created during the run. *)
Theorem create_tracking_number_shaped_and_unique :
  (forall e s r dst w c ed n db d db',
     create e s r dst w c ed n db = (Ok d, db') ->
     well_shaped (Delivery.tracking_number d) = true /\
     (forall row, In row (deliveries db) ->
        Row.tracking_number row <> Delivery.tracking_number d) /\
     get (Delivery.tracking_number d) db = (Ok None, db)) /\
  (forall e s r dst w c ed n db,
     stored (default_tracking_number e) db = false ->
     storage_ok e 0 = true -> storage_ok e 1 = true ->
     exists d db', create e s r dst w c ed n db = (Ok d, db')) /\
  (forall run, NoDup (map Row.tracking_number (deliveries (store_after run)))) /\
  (forall run,
     NoDup (map Delivery.tracking_number (created run)) /\
     Forall (fun d => well_shaped (Delivery.tracking_number d) = true) (created run)) /\
  (forall run e s r dst w c ed n d db',
     create e s r dst w c ed n (store_after run) = (Ok d, db') ->
     forall d0, In d0 (created run) ->
       Delivery.tracking_number d0 <> Delivery.tracking_number d).
Proof.
  split; [|split; [|split; [|split]]].
  - intros e s r dst w c ed n db d db' H.
    apply create_returns in H as (Hfresh & _ & _ & -> & _). cbn.
    split; [apply default_tracking_number_well_shaped|].
    split; [now apply stored_false_iff|now apply get_absent].
  - intros e s r dst w c ed n db Hfresh Hw Hl.
    rewrite create_cases, Hfresh, Hw, Hl. now eexists; eexists.
  - intros run. apply tracking_numbers_distinct, consistent_store_after.
  - intros run. split.
    + induction run as [|[e c] earlier IH]; [constructor|].
      cbn [created]. destruct c as [s r dst w co ed n|tn st loc msg]; [|exact IH].
      destruct (create e s r dst w co ed n (store_after earlier)) as [[d|x] db'] eqn:E;
        cbn [fst]; [|exact IH].
      cbn [map]. constructor; [|exact IH].
      intros Hin. apply in_map_iff in Hin as (d0 & Heq & Hd0).
      exact (created_fresh earlier e s r dst w co ed n d db' E d0 Hd0 Heq).
    + apply Forall_forall. intros d Hd. now apply (created_stored run d).
  - exact created_fresh.
Qed.

Lemma create_tracking_number_shaped_and_unique_witness :
  stored (default_tracking_number later) one_parcel = false /\
  exists d db',
    create later "Carol" "Dan" "9 Elm Rd" 1%float "" None ""
      (store_after [(calm, Create "Alice" "Bob" "123 Main St" 2.5%float "" None "")])
      = (Ok d, db') /\
    well_shaped (Delivery.tracking_number d) = true /\
    (forall row, In row (deliveries one_parcel) ->
       Row.tracking_number row <> Delivery.tracking_number d) /\
    (forall d0,
       In d0 (created [(calm, Create "Alice" "Bob" "123 Main St" 2.5%float "" None "")]) ->
       Delivery.tracking_number d0 <> Delivery.tracking_number d).
Proof.
  pose proof create_tracking_number_shaped_and_unique
    as (Hshaped & Hreturns & _ & _ & Hfresh).
  split; [reflexivity|].
  destruct (Hreturns later "Carol" "Dan" "9 Elm Rd" 1%float "" None "" one_parcel
              eq_refl eq_refl eq_refl) as (d & db' & Hcreate).
  exists d, db'. split; [exact Hcreate|].
  destruct (Hshaped later "Carol" "Dan" "9 Elm Rd" 1%float "" None "" one_parcel
              d db' Hcreate) as (Hshape & Huniq & _).
  split; [exact Hshape|]. split; [exact Huniq|].
  exact (Hfresh [(calm, Create "Alice" "Bob" "123 Main St" 2.5%float "" None "")]
           later "Carol" "Dan" "9 Elm Rd" 1%float "" None "" d db' Hcreate).
Defined.
